(** * Configuration store and completion gateway of the chat-bot backend

    A shallow embedding of [backend/src/services/configService.ts]
    (class [ConfigService]) and of the compiled [llmService.js]
    (class [LLMService]), with the properties of the proxy layer stated
    over it.

    Conventions of the embedding:
    - a JavaScript [number] is an exact rational ([Q]): the values a JSON
      body or the configuration file can carry.  The code only compares
      numbers with integer literals and tests them for zero, and both are
      exact on such values;
    - a JavaScript [string] is a [string]: each [ascii] is one character,
      the one with that code, so the strings are those over the
      characters U+0000 to U+00FF; [length] counts its characters;
    - an optional property ([x?: T], or a field of [Partial<T>]) is an
      [option]: [None] is [undefined];
    - [throw]/[try]/[catch] is a sum: [inl e] is a thrown [Error], [inr v]
      a returned value;
    - the fields of [this] that a method reads or writes, and the file it
      persists to, are threaded explicitly;
    - what a method prints on the console is left out. *)

From Stdlib Require Import String Ascii List Bool ZArith QArith Lia.
From Stdlib Require Import DecimalString.
Import ListNotations.

Local Open Scope string_scope.

(* ================================================================== *)
(** ** The fragment of JavaScript the two services use *)

Module Js.

Definition number := Q.

(** [x < y] and [x > y] on numbers. *)
Definition lt (x y : number) : bool := negb (Qle_bool y x).
Definition gt (x y : number) : bool := lt y x.

(** Truthiness: [0] and [''] are falsy, and so is [undefined]. *)
Definition truthy_num (x : number) : bool := negb (Qeq_bool x 0).
Definition truthy_str (s : string) : bool := negb (s =? "").

(** [!!x] on a string that may be [undefined]. *)
Definition truthy_opt_str (x : option string) : bool :=
  match x with
  | Some v => truthy_str v
  | None => false
  end.

(** [a || b] at the types it is used at. *)
Definition or_str (a b : string) : string :=
  if truthy_str a then a else b.
Definition or_num (a b : number) : number :=
  if truthy_num a then a else b.
Definition or_opt_num (a : option number) (b : number) : number :=
  match a with
  | Some v => or_num v b
  | None => b
  end.
Definition or_opt_str (a : option string) (b : string) : string :=
  match a with
  | Some v => or_str v b
  | None => b
  end.

(** [s.startsWith(p)], [s.substring(0, n)], [s.includes(p)]. *)
Definition startsWith (s p : string) : bool := String.prefix p s.

Definition substring0 (n : nat) (s : string) : string :=
  String.substring 0 n s.

Fixpoint includes (s p : string) : bool :=
  String.prefix p s ||
  match s with
  | EmptyString => false
  | String _ s' => includes s' p
  end.

(** [s.trim()]: white space and line terminators are removed at both
    ends.  Among the characters U+0000 to U+00FF these are tab, line
    feed, vertical tab, form feed, carriage return, space and the
    no-break space U+00A0. *)
Definition is_space (c : ascii) : bool :=
  match nat_of_ascii c with
  | 9 | 10 | 11 | 12 | 13 | 32 | 160 => true
  | _ => false
  end%nat.

Fixpoint trimStart (s : string) : string :=
  match s with
  | EmptyString => EmptyString
  | String c s' => if is_space c then trimStart s' else s
  end.

Fixpoint trimEnd (s : string) : string :=
  match s with
  | EmptyString => EmptyString
  | String c s' =>
      match trimEnd s' with
      | EmptyString => if is_space c then EmptyString else String c EmptyString
      | t => String c t
      end
  end.

Definition trim (s : string) : string := trimEnd (trimStart s).

(** An integer inside a template literal. *)
Definition show (z : Z) : string := NilZero.string_of_int (Z.to_int z).

(** What [throw] and a rejected promise carry.  [new Error(msg)] has the
    message only; the errors of the HTTP client also record whether a
    request was sent and the response that came back, if any. *)
Record Error (R : Type) : Type := mkError {
  message : string;
  response : option R;
  request : bool
}.
Arguments mkError {R} _ _ _.
Arguments message {R} _.
Arguments response {R} _.
Arguments request {R} _.

Definition newError {R : Type} (msg : string) : Error R :=
  mkError msg None false.

End Js.

(* ================================================================== *)
(** ** [configService.ts] *)

Module LLMConfig.
Record t : Type := mk {
  apiUrl : string;
  apiToken : string;
  defaultModel : string;
  maxTokens : Js.number;
  temperature : Js.number;
  requestTimeout : Js.number;
  enableLogging : bool
}.
End LLMConfig.

(** [Partial<LLMConfig>]. *)
Module PartialConfig.
Record t : Type := mk {
  apiUrl : option string;
  apiToken : option string;
  defaultModel : option string;
  maxTokens : option Js.number;
  temperature : option Js.number;
  requestTimeout : option Js.number;
  enableLogging : option bool
}.

(** The object literal [{}]. *)
Definition empty : t := mk None None None None None None None.

(** One field of [{ ...a, ...b }]. *)
Definition over {A : Type} (a b : option A) : option A :=
  match b with
  | Some _ => b
  | None => a
  end.

(** [{ ...a, ...b }]. *)
Definition spread (a b : t) : t :=
  mk (over (apiUrl a) (apiUrl b))
     (over (apiToken a) (apiToken b))
     (over (defaultModel a) (defaultModel b))
     (over (maxTokens a) (maxTokens b))
     (over (temperature a) (temperature b))
     (over (requestTimeout a) (requestTimeout b))
     (over (enableLogging a) (enableLogging b)).
End PartialConfig.

(** The variables of [process.env] that the service reads; a variable
    that is not set is [undefined]. *)
Module ProcessEnv.
Record t : Type := mk {
  LLM_API_URL : option string;
  LLM_API_TOKEN : option string;
  LLM_DEFAULT_MODEL : option string;
  LLM_MAX_TOKENS : option string;
  LLM_TEMPERATURE : option string;
  LLM_REQUEST_TIMEOUT : option string;
  LLM_ENABLE_LOGGING : option string
}.

(** No variable is set. *)
Definition unset : t := mk None None None None None None None.
End ProcessEnv.

Module ConfigService.

Definition Error := Js.Error unit.

(** The instance and its file: [this.config], the content of
    [config.json] ([None] when there is no file) and whether
    [fs.writeFileSync] succeeds on it. *)
Record t : Type := mk {
  config : PartialConfig.t;
  file : option PartialConfig.t;
  writable : bool
}.

(** A method: it reads and writes the instance, and returns or throws. *)
Definition M (A : Type) : Type := t -> (Error + A) * t.

Definition ret {A : Type} (a : A) : M A := fun s => (inr a, s).
Definition throw {A : Type} (msg : string) : M A :=
  fun s => (inl (Js.newError msg), s).
Definition bind {A B : Type} (m : M A) (k : A -> M B) : M B :=
  fun s =>
    match m s with
    | (inl e, s') => (inl e, s')
    | (inr a, s') => k a s'
    end.

Notation "m ;; k" := (bind m (fun _ => k))
  (at level 61, right associativity).

(** [saveConfig]: the write either replaces the file or fails, and a
    failure is thrown again as ['Failed to save configuration']. *)
Definition saveConfig : M unit :=
  fun s =>
    if writable s
    then (inr tt, mk (config s) (Some (config s)) (writable s))
    else (inl (Js.newError "Failed to save configuration"), s).

(** The [defaultConfig] literal of [getConfig], with the values of
    [configService.ts]. *)
Definition defaultConfig : LLMConfig.t :=
  LLMConfig.mk "" "" "meta-llama/Meta-Llama-3-8B"
               150 (3 # 10) 30000 false.

Definition orDefault {A : Type} (d : A) (o : option A) : A :=
  match o with
  | Some v => v
  | None => d
  end.

(** [getConfig]: [{ ...defaultConfig, ...this.config }]. *)
Definition getConfig (s : t) : LLMConfig.t :=
  let d := defaultConfig in
  let c := config s in
  LLMConfig.mk
    (orDefault (LLMConfig.apiUrl d) (PartialConfig.apiUrl c))
    (orDefault (LLMConfig.apiToken d) (PartialConfig.apiToken c))
    (orDefault (LLMConfig.defaultModel d) (PartialConfig.defaultModel c))
    (orDefault (LLMConfig.maxTokens d) (PartialConfig.maxTokens c))
    (orDefault (LLMConfig.temperature d) (PartialConfig.temperature c))
    (orDefault (LLMConfig.requestTimeout d) (PartialConfig.requestTimeout c))
    (orDefault (LLMConfig.enableLogging d) (PartialConfig.enableLogging c)).

(** The four checks of [validateConfig], in the order of the source;
    each gives the message it throws. *)
Definition checkApiUrl (c : PartialConfig.t) : option string :=
  match PartialConfig.apiUrl c with
  | Some u =>
      if Js.truthy_str u && negb (Js.startsWith u "http")
      then Some "API URL must start with http:// or https://"
      else None
  | None => None
  end.

Definition checkMaxTokens (c : PartialConfig.t) : option string :=
  match PartialConfig.maxTokens c with
  | Some n =>
      if Js.lt n 1 || Js.gt n 4000
      then Some "maxTokens must be between 1 and 4000"
      else None
  | None => None
  end.

Definition checkTemperature (c : PartialConfig.t) : option string :=
  match PartialConfig.temperature c with
  | Some x =>
      if Js.lt x 0 || Js.gt x 2
      then Some "temperature must be between 0 and 2"
      else None
  | None => None
  end.

Definition checkRequestTimeout (c : PartialConfig.t) : option string :=
  match PartialConfig.requestTimeout c with
  | Some n =>
      if Js.lt n 1000 || Js.gt n 120000
      then Some "requestTimeout must be between 1000ms and 120000ms"
      else None
  | None => None
  end.

Definition check (f : PartialConfig.t -> option string)
                 (c : PartialConfig.t) : M unit :=
  match f c with
  | Some msg => throw msg
  | None => ret tt
  end.

Definition validateConfig (c : PartialConfig.t) : M unit :=
  check checkApiUrl c ;;
  check checkMaxTokens c ;;
  check checkTemperature c ;;
  check checkRequestTimeout c.

Definition setConfig (c : PartialConfig.t) : M unit :=
  fun s => (inr tt, mk c (file s) (writable s)).

(** [updateConfig]: validate, merge into [this.config], save. *)
Definition updateConfig (newConfig : PartialConfig.t) : M unit :=
  validateConfig newConfig ;;
  (fun s => setConfig (PartialConfig.spread (config s) newConfig) s) ;;
  saveConfig.

Definition setApiConfig (apiUrl apiToken : string) : M unit :=
  if negb (Js.truthy_str apiUrl) || negb (Js.startsWith apiUrl "http")
  then throw "Invalid API URL. Must start with http:// or https://"
  else if negb (Js.truthy_str apiToken)
          || (String.length (Js.trim apiToken) =? 0)%nat
  then throw "API token is required"
  else updateConfig
         (PartialConfig.mk (Some (Js.trim apiUrl)) (Some (Js.trim apiToken))
                           None None None None None).

(** [getConfigStatus]. *)
Definition getConfigStatus (s : t) : bool * list string :=
  let c := getConfig s in
  let missingFields :=
    ((if Js.truthy_str (LLMConfig.apiUrl c) then [] else ["apiUrl"])
     ++ (if Js.truthy_str (LLMConfig.apiToken c) then [] else ["apiToken"]))%list in
  ((List.length missingFields =? 0)%nat, missingFields).

(** [getMaskedConfig]: the configuration with the token cut to its
    first ten characters and an empty URL replaced. *)
Definition getMaskedConfig (s : t) : LLMConfig.t :=
  let c := getConfig s in
  LLMConfig.mk
    (Js.or_str (LLMConfig.apiUrl c) "[Not configured]")
    (if Js.truthy_str (LLMConfig.apiToken c)
     then Js.substring0 10 (LLMConfig.apiToken c) ++ "..."
     else "")
    (LLMConfig.defaultModel c)
    (LLMConfig.maxTokens c)
    (LLMConfig.temperature c)
    (LLMConfig.requestTimeout c)
    (LLMConfig.enableLogging c).

(** [isConfigured]: [!!(config.apiUrl && config.apiToken)]. *)
Definition isConfigured (s : t) : bool :=
  let c := getConfig s in
  Js.truthy_str (LLMConfig.apiUrl c) && Js.truthy_str (LLMConfig.apiToken c).

Section Environment.

(** The built-in [parseInt] and [parseFloat], on the texts the environment
    holds.  (On a text that is no number they give [NaN], which
    [Js.number] does not have: the environment is taken to hold numbers
    where it holds anything.) *)
Variables parseInt parseFloat : string -> Js.number.

Variable env : ProcessEnv.t.

(** The object literal of [initializeDefaultConfig]. *)
Definition envConfig : PartialConfig.t :=
  PartialConfig.mk
    (Some (Js.or_opt_str (ProcessEnv.LLM_API_URL env) ""))
    (Some (Js.or_opt_str (ProcessEnv.LLM_API_TOKEN env) ""))
    (Some (Js.or_opt_str (ProcessEnv.LLM_DEFAULT_MODEL env)
             "meta-llama/Meta-Llama-3-8B"))
    (Some (parseInt (Js.or_opt_str (ProcessEnv.LLM_MAX_TOKENS env) "150")))
    (Some (parseFloat (Js.or_opt_str (ProcessEnv.LLM_TEMPERATURE env) "0.3")))
    (Some (parseInt
             (Js.or_opt_str (ProcessEnv.LLM_REQUEST_TIMEOUT env) "30000")))
    (Some (match ProcessEnv.LLM_ENABLE_LOGGING env with
           | Some v => (v =? "true")
           | None => false
           end)).

Definition initializeDefaultConfig : M unit :=
  setConfig envConfig ;; saveConfig.

(** [resetConfig]. *)
Definition resetConfig : M unit :=
  setConfig PartialConfig.empty ;; initializeDefaultConfig.

(** What [loadConfig] finds at [configPath]: no file, a file that holds
    the JSON of a configuration, or a file on which [JSON.parse] throws
    (with the message it throws). *)
Inductive Disk : Type :=
| NoFile
| Json (c : PartialConfig.t)
| Garbled (msg : string).

(** [loadConfig]: whatever is thrown inside [try], by [JSON.parse] or by
    the save of the defaults, is caught and the defaults are initialized
    (again). *)
Definition loadConfig (disk : Disk) : M unit :=
  fun s =>
    let tried :=
      match disk with
      | NoFile => initializeDefaultConfig s
      | Json c => setConfig c s
      | Garbled msg => throw msg s
      end in
    match tried with
    | (inr v, s') => (inr v, s')
    | (inl _, s') => initializeDefaultConfig s'
    end.

End Environment.

End ConfigService.

(* ================================================================== *)
(** ** [llmService.js] *)

(** [LLMRequest].  Its optional [messages] is never read by the service
    and is left out. *)
Module LLMRequest.
Record t : Type := mk {
  model : string;
  prompt : string;
  max_tokens : option Js.number;
  temperature : option Js.number
}.
End LLMRequest.

(** The body of a reply: [LLMResponse] on success, [{error: {message}}]
    on failure.  Every property the service guards with [&&], [?.] or
    [||] is optional. *)
Module LLMResponse.
Record Message : Type := mkMessage {
  role : string;
  content : option string
}.

Record Choice : Type := mkChoice {
  text : option string;
  message : option Message
}.

Record ErrorBody : Type := mkErrorBody {
  error_message : option string
}.

Record t : Type := mk {
  id : string;
  model : string;
  choices : option (list Choice);
  total_tokens : option Js.number;
  error : option ErrorBody
}.
End LLMResponse.

(** The HTTP client ([axios]) as the service uses it.  It is a dependency of
    the repository, not part of it: [post] follows its documented contract,
    over an arbitrary network. *)
Module Axios.

Record Payload : Type := mkPayload {
  model : string;
  prompt : string;
  max_tokens : Js.number;
  temperature : Js.number
}.

(** One outbound [POST]: the URL, the body, the [Authorization] header and
    the [timeout] option. *)
Record Call : Type := mkCall {
  url : string;
  payload : Payload;
  authorization : string;
  timeout : Js.number
}.

Record Response : Type := mkResponse {
  status : Z;
  statusText : string;
  data : LLMResponse.t
}.

(** What the network does with a call: a reply arrives; the request is
    sent and no reply arrives (time-out, DNS, connection refused); or the
    request cannot be set up. *)
Inductive Outcome : Type :=
| Replied (r : Response)
| NoReply (msg : string)
| NotSent (msg : string).

Definition Network : Type := Call -> Outcome.

Definition Error := Js.Error Response.

(** [axios.post(url, payload, { validateStatus })]: the promise resolves
    with a reply whose status [validateStatus] accepts, and is rejected
    with an error carrying the reply otherwise. *)
Definition post (net : Network) (validateStatus : Z -> bool) (c : Call)
  : Error + Response :=
  match net c with
  | Replied r =>
      if validateStatus (status r)
      then inr r
      else inl (Js.mkError
                  ("Request failed with status code " ++ Js.show (status r))
                  (Some r) true)
  | NoReply msg => inl (Js.mkError msg None true)
  | NotSent msg => inl (Js.mkError msg None false)
  end.

End Axios.

Module LLMService.

Definition Error := Axios.Error.

(** The [payload] object of [sendChatCompletion]; the last operand of each
    [||] chain is the literal of [llmService.js]. *)
Definition payload (config : LLMConfig.t) (request : LLMRequest.t)
  : Axios.Payload :=
  Axios.mkPayload
    (Js.or_str (LLMRequest.model request)
       (Js.or_str (LLMConfig.defaultModel config) "meta-llama/Meta-Llama-3-8B"))
    (LLMRequest.prompt request)
    (Js.or_opt_num (LLMRequest.max_tokens request)
       (Js.or_num (LLMConfig.maxTokens config) 100))
    (Js.or_opt_num (LLMRequest.temperature request)
       (Js.or_num (LLMConfig.temperature config) (7 # 10))).

Definition call (config : LLMConfig.t) (request : LLMRequest.t) : Axios.Call :=
  Axios.mkCall
    (LLMConfig.apiUrl config)
    (payload config request)
    ("Bearer " ++ LLMConfig.apiToken config)
    (Js.or_num (LLMConfig.requestTimeout config) 30000).

Definition validateStatus (status : Z) : bool := (status <? 500)%Z.

(** The body of the [try] block. *)
Definition attempt (net : Axios.Network) (c : Axios.Call)
  : Error + LLMResponse.t :=
  match Axios.post net validateStatus c with
  | inl e => inl e
  | inr response =>
      if (Axios.status response >=? 400)%Z
      then inl (Js.newError
                  ("LLM API returned error: "
                   ++ Js.show (Axios.status response)
                   ++ " - " ++ Axios.statusText response))
      else inr (Axios.data response)
  end.

(** [error.response.data?.error?.message]. *)
Definition upstreamMessage (r : Axios.Response) : option string :=
  match LLMResponse.error (Axios.data r) with
  | Some b => LLMResponse.error_message b
  | None => None
  end.

(** The [catch] block: what is thrown in place of [error]. *)
Definition classify (error : Error) : Error :=
  match Js.response error with
  | Some r =>
      Js.newError
        ("LLM API Error (" ++ Js.show (Axios.status r) ++ "): "
         ++ Js.or_opt_str (upstreamMessage r) (Axios.statusText r))
  | None =>
      if Js.request error
      then Js.newError
             "LLM API is not responding. Please check the API URL and network connection."
      else Js.newError ("Request failed: " ++ Js.message error)
  end.

(** What a method gives back: its result or the error it throws, and the
    outbound calls it made, in order. *)
Definition Run (A : Type) : Type := ((Error + A) * list Axios.Call)%type.

Definition sendChatCompletion (net : Axios.Network) (cs : ConfigService.t)
                              (request : LLMRequest.t) : Run LLMResponse.t :=
  let config := ConfigService.getConfig cs in
  if negb (Js.truthy_str (LLMConfig.apiUrl config))
  then (inl (Js.newError "LLM API URL not configured"), [])
  else if negb (Js.truthy_str (LLMConfig.apiToken config))
  then (inl (Js.newError "LLM API token not configured"), [])
  else
    let c := call config request in
    match attempt net c with
    | inl error => (inl (classify error), [c])
    | inr d => (inr d, [c])
    end.

(** [choice.message?.content]. *)
Definition messageContent (choice : LLMResponse.Choice) : option string :=
  match LLMResponse.message choice with
  | Some m => LLMResponse.content m
  | None => None
  end.

(** [choice.text || choice.message?.content || '']. *)
Definition choiceText (choice : LLMResponse.Choice) : string :=
  Js.or_opt_str (LLMResponse.text choice)
    (Js.or_opt_str (messageContent choice) "").

Definition sendCompletion (net : Axios.Network) (cs : ConfigService.t)
                          (prompt : string) (maxTokens : option Js.number)
  : Run string :=
  match sendChatCompletion net cs (LLMRequest.mk "" prompt maxTokens None) with
  | (inl e, log) => (inl e, log)
  | (inr response, log) =>
      match LLMResponse.choices response with
      | Some (choice :: _) => (inr (choiceText choice), log)
      | _ => (inl (Js.newError "No response from LLM"), log)
      end
  end.

Record TestResult : Type := mkTestResult {
  success : bool;
  message : string;
  responseTime : option Z
}.

Definition testPrompt : string :=
  "Hello, this is a connection test. Please respond with 'Connection successful'.".

(** [testConnection]; [startTime] and [endTime] are the two readings of
    [Date.now()]. *)
Definition testConnection (net : Axios.Network) (cs : ConfigService.t)
                          (startTime endTime : Z)
  : TestResult * list Axios.Call :=
  match sendCompletion net cs testPrompt (Some 20) with
  | (inr response, log) =>
      (mkTestResult true
         ("Connection successful! Response: "
          ++ Js.substring0 100 response ++ "...")
         (Some (endTime - startTime)%Z),
       log)
  | (inl error, log) =>
      (mkTestResult false ("Connection failed: " ++ Js.message error) None,
       log)
  end.

Record Validation : Type := mkValidation {
  valid : bool;
  errors : list string
}.

(** [x && (x < lo || x > hi)] on an optional number. *)
Definition presentOutside (x : option Js.number) (lo hi : Js.number) : bool :=
  match x with
  | Some v => Js.truthy_num v && (Js.lt v lo || Js.gt v hi)
  | None => false
  end.

(** [if (cond) errors.push(msg)]. *)
Definition pushIf (cond : bool) (msg : string) (errors : list string)
  : list string :=
  if cond then (errors ++ [msg])%list else errors.

Definition validateRequest (request : LLMRequest.t) : Validation :=
  let prompt := LLMRequest.prompt request in
  let errors := [] in
  let errors :=
    pushIf (negb (Js.truthy_str prompt)
            || (String.length (Js.trim prompt) =? 0)%nat)
           "Prompt is required and cannot be empty" errors in
  let errors :=
    pushIf (Js.truthy_str prompt
            && (Z.of_nat (String.length prompt) >? 10000)%Z)
           "Prompt is too long (maximum 10,000 characters)" errors in
  let errors :=
    pushIf (presentOutside (LLMRequest.max_tokens request) 1 4000)
           "max_tokens must be between 1 and 4000" errors in
  let errors :=
    pushIf (presentOutside (LLMRequest.temperature request) 0 2)
           "temperature must be between 0 and 2" errors in
  mkValidation (List.length errors =? 0)%nat errors.

End LLMService.

(* ================================================================== *)
(** ** [routes/chat.js] and [routes/config.ts] *)

(** A handler is given the parsed body of the request and the text of
    [new Date().toISOString()], and answers with [res.status(code).json(body)];
    [res.json(body)] alone answers 200. *)

Module ChatRouter.

(** The bodies the three handlers send, one constructor for each object
    literal. *)
Inductive Body : Type :=
| Invalid (error : string) (details : list string)
| Refused (error : string)
| Failed (error message timestamp : string)
| Completion (data : LLMResponse.t) (timestamp : string)
| Simple (response : string) (timestamp : string)
| TestPassed (message : string) (responseTime : option Z) (timestamp : string)
| TestFailed (message : string) (timestamp : string).

Record Reply : Type := mkReply {
  code : Z;
  body : Body
}.

(** [POST /completion]. *)
Definition completion (net : Axios.Network) (cs : ConfigService.t)
                      (now : string) (request : LLMRequest.t)
  : Reply * list Axios.Call :=
  let validation := LLMService.validateRequest request in
  if negb (LLMService.valid validation)
  then (mkReply 400 (Invalid "Invalid request"
                             (LLMService.errors validation)), [])
  else
    match LLMService.sendChatCompletion net cs request with
    | (inr response, log) => (mkReply 200 (Completion response now), log)
    | (inl error, log) =>
        (mkReply 500 (Failed "Failed to get completion"
                             (Js.message error) now), log)
    end.

(** [POST /simple], on a body [{ prompt, maxTokens }]; the test
    [typeof prompt !== 'string'] is decided by the type. *)
Definition simple (net : Axios.Network) (cs : ConfigService.t)
                  (now : string) (prompt : option string)
                  (maxTokens : option Js.number)
  : Reply * list Axios.Call :=
  match prompt with
  | Some p =>
      if negb (Js.truthy_str p) || (String.length (Js.trim p) =? 0)%nat
      then (mkReply 400
              (Refused "Prompt is required and must be a non-empty string"),
            [])
      else
        match LLMService.sendCompletion net cs p maxTokens with
        | (inr response, log) => (mkReply 200 (Simple response now), log)
        | (inl error, log) =>
            (mkReply 500 (Failed "Failed to get completion"
                                 (Js.message error) now), log)
        end
  | None =>
      (mkReply 400
         (Refused "Prompt is required and must be a non-empty string"),
       [])
  end.

(** [POST /test]. *)
Definition test (net : Axios.Network) (cs : ConfigService.t)
                (now : string) (startTime endTime : Z)
  : Reply * list Axios.Call :=
  let (result, log) := LLMService.testConnection net cs startTime endTime in
  if LLMService.success result
  then (mkReply 200 (TestPassed (LLMService.message result)
                                (LLMService.responseTime result) now), log)
  else (mkReply 500 (TestFailed (LLMService.message result) now), log).

End ChatRouter.

Module ConfigRouter.

Inductive Body : Type :=
| Shown (config : LLMConfig.t) (status : bool * list string)
        (timestamp : string)
| Updated (message : string) (config : LLMConfig.t) (timestamp : string)
| Done (message : string) (timestamp : string)
| Status (configured : bool) (missingFields : list string)
         (timestamp : string)
| Refused (error : string)
| Failed (error message timestamp : string).

Record Reply : Type := mkReply {
  code : Z;
  body : Body
}.

Definition isDefined {A : Type} (x : option A) : bool :=
  match x with
  | Some _ => true
  | None => false
  end.

(** [GET /]. *)
Definition get (now : string) (s : ConfigService.t) : Reply :=
  mkReply 200 (Shown (ConfigService.getMaskedConfig s)
                     (ConfigService.getConfigStatus s) now).

(** [POST /]. *)
Definition post (now : string) (newConfig : PartialConfig.t)
                (s : ConfigService.t) : Reply * ConfigService.t :=
  let apiUrl := PartialConfig.apiUrl newConfig in
  let apiToken := PartialConfig.apiToken newConfig in
  if (isDefined apiUrl || isDefined apiToken)
     && (negb (Js.truthy_opt_str apiUrl) || negb (Js.truthy_opt_str apiToken))
  then (mkReply 400
          (Refused "Both apiUrl and apiToken are required when updating API configuration"),
        s)
  else
    match ConfigService.updateConfig newConfig s with
    | (inr _, s') =>
        (mkReply 200 (Updated "Configuration updated successfully"
                              (ConfigService.getMaskedConfig s') now), s')
    | (inl error, s') =>
        (mkReply 400 (Failed "Failed to update configuration"
                             (Js.message error) now), s')
    end.

(** [POST /api], on a body [{ apiUrl, apiToken }]. *)
Definition postApi (now : string) (apiUrl apiToken : option string)
                   (s : ConfigService.t) : Reply * ConfigService.t :=
  match apiUrl, apiToken with
  | Some u, Some t =>
      if negb (Js.truthy_str u) || negb (Js.truthy_str t)
      then (mkReply 400 (Refused "Both apiUrl and apiToken are required"), s)
      else
        match ConfigService.setApiConfig u t s with
        | (inr _, s') =>
            (mkReply 200 (Done "API configuration updated successfully" now),
             s')
        | (inl error, s') =>
            (mkReply 400 (Failed "Failed to set API configuration"
                                 (Js.message error) now), s')
        end
  | _, _ => (mkReply 400 (Refused "Both apiUrl and apiToken are required"), s)
  end.

(** [GET /status]. *)
Definition getStatus (now : string) (s : ConfigService.t) : Reply :=
  let status := ConfigService.getConfigStatus s in
  mkReply 200 (Status (fst status) (snd status) now).

(** [POST /reset]. *)
Definition postReset (parseInt parseFloat : string -> Js.number)
                     (env : ProcessEnv.t) (now : string)
                     (s : ConfigService.t) : Reply * ConfigService.t :=
  match ConfigService.resetConfig parseInt parseFloat env s with
  | (inr _, s') =>
      (mkReply 200 (Updated "Configuration reset to defaults"
                            (ConfigService.getMaskedConfig s') now), s')
  | (inl error, s') =>
      (mkReply 500 (Failed "Failed to reset configuration"
                           (Js.message error) now), s')
  end.

End ConfigRouter.

(* ================================================================== *)
(** ** Stores and requests used in the examples *)

(** A freshly constructed service with nothing stored. *)
Definition freshStore : ConfigService.t :=
  ConfigService.mk PartialConfig.empty None true.

(** A configured service: endpoint and token are stored. *)
Definition readyStore : ConfigService.t :=
  ConfigService.mk
    (PartialConfig.mk (Some "https://llm.example/v1/completions")
                      (Some "hf_0123456789abcdef")
                      None None None None None)
    None true.

(** The same service on a file that cannot be written. *)
Definition readOnlyStore : ConfigService.t :=
  ConfigService.mk (ConfigService.config readyStore) None false.

(** [{ apiUrl: url }]. *)
Definition onlyUrl (url : string) : PartialConfig.t :=
  PartialConfig.mk (Some url) None None None None None None.

(** The bounds of the configuration fields, as the specification words
    them: what makes a partial configuration invalid. *)
Definition badScheme (u : string) : Prop :=
  u <> "" /\ Js.startsWith u "http://" = false
          /\ Js.startsWith u "https://" = false.

Definition outside (lo hi x : Js.number) : Prop := (x < lo \/ hi < x)%Q.

Definition within (lo hi x : Js.number) : Prop := (lo <= x /\ x <= hi)%Q.

(** The scheme test the code performs instead. *)
Definition noHttpPrefix (u : string) : Prop :=
  u <> "" /\ Js.startsWith u "http" = false.

(** Some present field of [c] fails a check of [validateConfig]. *)
Definition Rejected (c : PartialConfig.t) : Prop :=
  (exists u, PartialConfig.apiUrl c = Some u /\ noHttpPrefix u)
  \/ (exists n, PartialConfig.maxTokens c = Some n /\ outside 1 4000 n)
  \/ (exists x, PartialConfig.temperature c = Some x /\ outside 0 2 x)
  \/ (exists n, PartialConfig.requestTimeout c = Some n
                /\ outside 1000 120000 n).

(** Every field present in [p] has its value in [c]. *)
Definition Carries (p : PartialConfig.t) (c : LLMConfig.t) : Prop :=
  (forall v, PartialConfig.apiUrl p = Some v -> LLMConfig.apiUrl c = v)
  /\ (forall v, PartialConfig.apiToken p = Some v -> LLMConfig.apiToken c = v)
  /\ (forall v, PartialConfig.defaultModel p = Some v
                -> LLMConfig.defaultModel c = v)
  /\ (forall v, PartialConfig.maxTokens p = Some v -> LLMConfig.maxTokens c = v)
  /\ (forall v, PartialConfig.temperature p = Some v
                -> LLMConfig.temperature c = v)
  /\ (forall v, PartialConfig.requestTimeout p = Some v
                -> LLMConfig.requestTimeout c = v)
  /\ (forall v, PartialConfig.enableLogging p = Some v
                -> LLMConfig.enableLogging c = v).

(** A network on which every call gets the reply [r]. *)
Definition replying (r : Axios.Response) : Axios.Network :=
  fun _ => Axios.Replied r.

(** A network on which no reply arrives before the time-out. *)
Definition silent : Axios.Network :=
  fun c => Axios.NoReply "timeout exceeded".

(** A body [{ error: { message: msg } }]. *)
Definition errorBody (msg : string) : LLMResponse.t :=
  LLMResponse.mk "" "" None None (Some (LLMResponse.mkErrorBody (Some msg))).

(** The scenario of the specification: status 404 with the body
    [{error: {message: "model not found"}}]. *)
Definition modelNotFound : Axios.Response :=
  Axios.mkResponse 404 "Not Found" (errorBody "model not found").

(** A completion whose only choice carries no text at all. *)
Definition blankChoice : Axios.Response :=
  Axios.mkResponse 200 "OK"
    (LLMResponse.mk "cmpl-1" "meta-llama/Meta-Llama-3-8B"
       (Some [LLMResponse.mkChoice None None]) None None).

(** A prompt that [validateRequest] accepts. *)
Definition goodPrompt (p : string) : Prop :=
  Js.trim p <> "" /\ (Z.of_nat (String.length p) <= 10000)%Z.

(** An optional number is absent or within the bounds. *)
Definition absentOrWithin (lo hi : Js.number) (x : option Js.number) : Prop :=
  match x with
  | Some v => within lo hi v
  | None => True
  end.

(** Every field absent from [p] is in [c'] what it is in [c]. *)
Definition Keeps (p : PartialConfig.t) (c c' : LLMConfig.t) : Prop :=
  (PartialConfig.apiUrl p = None -> LLMConfig.apiUrl c' = LLMConfig.apiUrl c)
  /\ (PartialConfig.apiToken p = None
      -> LLMConfig.apiToken c' = LLMConfig.apiToken c)
  /\ (PartialConfig.defaultModel p = None
      -> LLMConfig.defaultModel c' = LLMConfig.defaultModel c)
  /\ (PartialConfig.maxTokens p = None
      -> LLMConfig.maxTokens c' = LLMConfig.maxTokens c)
  /\ (PartialConfig.temperature p = None
      -> LLMConfig.temperature c' = LLMConfig.temperature c)
  /\ (PartialConfig.requestTimeout p = None
      -> LLMConfig.requestTimeout c' = LLMConfig.requestTimeout c)
  /\ (PartialConfig.enableLogging p = None
      -> LLMConfig.enableLogging c' = LLMConfig.enableLogging c).

(** An optional URL that [validateConfig] lets through: absent, empty, or
    starting with ["http"]. *)
Definition urlAccepted (u : option string) : Prop :=
  match u with
  | Some v => v = "" \/ Js.startsWith v "http" = true
  | None => True
  end.

(** A partial configuration that [validateConfig] lets through. *)
Definition Accepted (c : PartialConfig.t) : Prop :=
  urlAccepted (PartialConfig.apiUrl c)
  /\ absentOrWithin 1 4000 (PartialConfig.maxTokens c)
  /\ absentOrWithin 0 2 (PartialConfig.temperature c)
  /\ absentOrWithin 1000 120000 (PartialConfig.requestTimeout c).

(** An optional number that the guard [x && (x < lo || x > hi)] lets
    through: absent, zero, or within the bounds. *)
Definition absentZeroOrWithin (lo hi : Js.number) (x : option Js.number)
  : Prop :=
  match x with
  | Some v => (v == 0)%Q \/ within lo hi v
  | None => True
  end.

(** The bodies of two replies that came with status 200. *)
Definition textReply (t : string) : Axios.Response :=
  Axios.mkResponse 200 "OK"
    (LLMResponse.mk "cmpl-2" "meta-llama/Meta-Llama-3-8B"
       (Some [LLMResponse.mkChoice (Some t) None]) (Some 12) None).

(** The rule of [POST /api/config] on the two fields of the API: both
    are absent, or both are present and not empty. *)
Definition BothOrNeither (c : PartialConfig.t) : Prop :=
  (PartialConfig.apiUrl c = None /\ PartialConfig.apiToken c = None)
  \/ (exists u t, PartialConfig.apiUrl c = Some u
                  /\ PartialConfig.apiToken c = Some t
                  /\ u <> "" /\ t <> "").

(** A text of white space only that has no space of [ASCII] in it: two
    no-break spaces, U+00A0. *)
Definition noBreakSpaces : string :=
  String "160"%char (String "160"%char EmptyString).

(** The message of the first check of [validateConfig] that fails. *)
Definition firstViolation (c : PartialConfig.t) : option string :=
  match ConfigService.checkApiUrl c with
  | Some msg => Some msg
  | None =>
      match ConfigService.checkMaxTokens c with
      | Some msg => Some msg
      | None =>
          match ConfigService.checkTemperature c with
          | Some msg => Some msg
          | None => ConfigService.checkRequestTimeout c
          end
      end
  end.

(* ================================================================== *)
(** ** Facts about the JavaScript fragment *)

Section JsFacts.

Lemma lt_spec (x y : Js.number) : Js.lt x y = true <-> (x < y)%Q.
Proof.
  unfold Js.lt. rewrite negb_true_iff.
  split; intro H.
  - apply Qnot_le_lt. intro Hle.
    apply Qle_bool_iff in Hle. congruence.
  - destruct (Qle_bool y x) eqn:E; [|reflexivity].
    apply Qle_bool_iff in E. exfalso. exact (Qlt_not_le _ _ H E).
Qed.

Lemma lt_false (x y : Js.number) : Js.lt x y = false <-> (y <= x)%Q.
Proof.
  unfold Js.lt. rewrite negb_false_iff. apply Qle_bool_iff.
Qed.

Lemma outside_spec (lo hi x : Js.number) :
  Js.lt x lo || Js.gt x hi = true <-> outside lo hi x.
Proof.
  unfold outside, Js.gt. rewrite orb_true_iff, !lt_spec. tauto.
Qed.

Lemma within_spec (lo hi x : Js.number) :
  Js.lt x lo || Js.gt x hi = false <-> within lo hi x.
Proof.
  unfold within, Js.gt. rewrite orb_false_iff, !lt_false. tauto.
Qed.

Lemma truthy_str_spec (s : string) : Js.truthy_str s = true <-> s <> "".
Proof.
  unfold Js.truthy_str. rewrite negb_true_iff. apply String.eqb_neq.
Qed.

Lemma truthy_str_false (s : string) : Js.truthy_str s = false <-> s = "".
Proof.
  unfold Js.truthy_str. rewrite negb_false_iff. apply String.eqb_eq.
Qed.

Lemma truthy_num_false (x : Js.number) :
  Js.truthy_num x = false <-> (x == 0)%Q.
Proof.
  unfold Js.truthy_num. rewrite negb_false_iff. apply Qeq_bool_iff.
Qed.

Lemma truthy_num_spec (x : Js.number) :
  Js.truthy_num x = true <-> ~ (x == 0)%Q.
Proof.
  rewrite <- truthy_num_false. destruct (Js.truthy_num x); split; congruence.
Qed.

(** [substring(0, n)] keeps [min n length] characters, all from the front. *)
Lemma substring0_length (n : nat) (s : string) :
  String.length (Js.substring0 n s) = Nat.min n (String.length s).
Proof.
  unfold Js.substring0. revert s.
  induction n as [|n IH]; intros [|c s]; simpl; auto.
Qed.

Lemma substring0_prefix (n : nat) (s : string) :
  String.prefix (Js.substring0 n s) s = true.
Proof.
  unfold Js.substring0. revert s.
  induction n as [|n IH]; intros [|c s]; simpl; auto.
  destruct (ascii_dec c c) as [_|Hne]; [apply IH | contradiction].
Qed.

Lemma append_length (s t : string) :
  String.length (s ++ t) = (String.length s + String.length t)%nat.
Proof.
  induction s as [|c s IH]; simpl; [reflexivity | now rewrite IH].
Qed.

Lemma prefix_append (p t : string) : String.prefix p (p ++ t) = true.
Proof.
  induction p as [|c p IH]; simpl.
  - now destruct t.
  - destruct (ascii_dec c c) as [_|Hne]; [exact IH | contradiction].
Qed.

(** [includes] finds a word wherever it stands in the string. *)
Lemma includes_append (pre p post : string) :
  Js.includes (pre ++ p ++ post) p = true.
Proof.
  induction pre as [|c pre IH]; simpl.
  - pose proof (prefix_append p post) as H.
    destruct (p ++ post); cbn [Js.includes]; rewrite H; reflexivity.
  - rewrite IH. apply orb_true_r.
Qed.

End JsFacts.

(* ================================================================== *)
(** ** The configuration store *)

Section ConfigStore.

Import ConfigService.

Variable s : ConfigService.t.

(** [validateConfig] reads nothing but its argument and writes nothing:
    it throws the first violation or returns. *)
Lemma validateConfig_unfold (c : PartialConfig.t) :
  validateConfig c s =
  match firstViolation c with
  | Some msg => (inl (Js.newError msg), s)
  | None => (inr tt, s)
  end.
Proof.
  unfold validateConfig, firstViolation, bind, check, throw, ret.
  destruct (checkApiUrl c); [reflexivity|].
  destruct (checkMaxTokens c); [reflexivity|].
  destruct (checkTemperature c); [reflexivity|].
  destruct (checkRequestTimeout c); reflexivity.
Qed.

Lemma validateConfig_pure (c : PartialConfig.t) :
  snd (validateConfig c s) = s.
Proof.
  rewrite validateConfig_unfold. now destruct (firstViolation c).
Qed.

(** A rejected update throws before [this.config] is assigned. *)
Lemma updateConfig_throws (c : PartialConfig.t) (msg : string) :
  firstViolation c = Some msg ->
  updateConfig c s = (inl (Js.newError msg), s).
Proof.
  intro H. unfold updateConfig, bind at 1.
  now rewrite validateConfig_unfold, H.
Qed.

(** An accepted update merges, then saves. *)
Lemma updateConfig_passes (c : PartialConfig.t) :
  firstViolation c = None ->
  updateConfig c s =
  saveConfig (mk (PartialConfig.spread (config s) c) (file s) (writable s)).
Proof.
  intro H. unfold updateConfig, bind.
  rewrite validateConfig_unfold, H. reflexivity.
Qed.

Lemma checkApiUrl_rejects (c : PartialConfig.t) (u : string) :
  PartialConfig.apiUrl c = Some u -> noHttpPrefix u ->
  checkApiUrl c <> None.
Proof.
  intros Hu [Hne Hp]. unfold checkApiUrl. rewrite Hu.
  apply truthy_str_spec in Hne. rewrite Hne, Hp. discriminate.
Qed.

Lemma checkMaxTokens_rejects (c : PartialConfig.t) (n : Js.number) :
  PartialConfig.maxTokens c = Some n -> outside 1 4000 n ->
  checkMaxTokens c <> None.
Proof.
  intros Hn Ho. unfold checkMaxTokens. rewrite Hn.
  apply outside_spec in Ho. rewrite Ho. discriminate.
Qed.

Lemma checkTemperature_rejects (c : PartialConfig.t) (x : Js.number) :
  PartialConfig.temperature c = Some x -> outside 0 2 x ->
  checkTemperature c <> None.
Proof.
  intros Hx Ho. unfold checkTemperature. rewrite Hx.
  apply outside_spec in Ho. rewrite Ho. discriminate.
Qed.

Lemma checkRequestTimeout_rejects (c : PartialConfig.t) (n : Js.number) :
  PartialConfig.requestTimeout c = Some n -> outside 1000 120000 n ->
  checkRequestTimeout c <> None.
Proof.
  intros Hn Ho. unfold checkRequestTimeout. rewrite Hn.
  apply outside_spec in Ho. rewrite Ho. discriminate.
Qed.

Lemma Rejected_firstViolation (c : PartialConfig.t) :
  Rejected c -> exists msg, firstViolation c = Some msg.
Proof.
  intros [(u & Hu & Hb) | [(n & Hn & Ho) | [(x & Hx & Ho) | (n & Hn & Ho)]]];
    unfold firstViolation.
  - pose proof (checkApiUrl_rejects c u Hu Hb).
    destruct (checkApiUrl c); [eauto | contradiction].
  - pose proof (checkMaxTokens_rejects c n Hn Ho).
    destruct (checkApiUrl c); [eauto|].
    destruct (checkMaxTokens c); [eauto | contradiction].
  - pose proof (checkTemperature_rejects c x Hx Ho).
    destruct (checkApiUrl c); [eauto|].
    destruct (checkMaxTokens c); [eauto|].
    destruct (checkTemperature c); [eauto | contradiction].
  - pose proof (checkRequestTimeout_rejects c n Hn Ho).
    destruct (checkApiUrl c); [eauto|].
    destruct (checkMaxTokens c); [eauto|].
    destruct (checkTemperature c); [eauto|].
    destruct (checkRequestTimeout c); [eauto | contradiction].
Qed.

(** Whatever [validateConfig] rejects leaves the store, and so
    [getConfig], as it was. *)
Lemma updateConfig_atomic (c : PartialConfig.t) :
  Rejected c ->
  exists msg, updateConfig c s = (inl (Js.newError msg), s).
Proof.
  intro H. destruct (Rejected_firstViolation c H) as [msg Hmsg].
  exists msg. now apply updateConfig_throws.
Qed.

(** [setApiConfig] refuses a URL without the prefix before it touches
    the store. *)
Lemma setApiConfig_rejects (url token : string) :
  Js.startsWith url "http" = false ->
  setApiConfig url token s =
  (inl (Js.newError "Invalid API URL. Must start with http:// or https://"), s).
Proof.
  intro H. unfold setApiConfig. rewrite H.
  rewrite orb_true_r. reflexivity.
Qed.

Lemma Carries_spread (old c : PartialConfig.t) (f : option PartialConfig.t)
                     (w : bool) :
  Carries c (getConfig (mk (PartialConfig.spread old c) f w)).
Proof.
  unfold Carries, getConfig, PartialConfig.spread; simpl.
  repeat split; intros v Hv; rewrite Hv; reflexivity.
Qed.

End ConfigStore.

(** The scenario of the specification: [setApiConfig("ftp://bad", "tok")]
    is refused and nothing is stored. *)
Example setApiConfig_ftp :
  ConfigService.setApiConfig "ftp://bad" "tok" readyStore =
  (inl (Js.newError "Invalid API URL. Must start with http:// or https://"),
   readyStore).
Proof. now apply setApiConfig_rejects. Qed.

Example updateConfig_ftp :
  ConfigService.updateConfig (onlyUrl "ftp://bad") readyStore =
  (inl (Js.newError "API URL must start with http:// or https://"),
   readyStore).
Proof. now apply updateConfig_throws. Qed.

(** C3, evaluated where it fails.  [{ apiUrl: "httpx://bad" }] has a
    non-empty URL with neither an [http://] nor an [https://] prefix, yet
    [updateConfig] accepts it: the test is [startsWith('http')] only, under
    a message that asks for [http://] or [https://].  The update is merged
    and saved, and [getConfig] changes.  (Every update that
    [validateConfig] does reject leaves the store as it was:
    [updateConfig_atomic].) *)
Theorem updateConfig_accepts_http_word :
  badScheme "httpx://bad"
  /\ exists s',
       ConfigService.updateConfig (onlyUrl "httpx://bad") readyStore
       = (inr tt, s')
       /\ LLMConfig.apiUrl (ConfigService.getConfig s') = "httpx://bad"
       /\ ConfigService.getConfig s' <> ConfigService.getConfig readyStore.
Proof.
  split.
  - unfold badScheme. split; [discriminate | split; reflexivity].
  - eexists. split; [reflexivity|]. split; [reflexivity|].
    intro H. apply (f_equal LLMConfig.apiUrl) in H. discriminate H.
Qed.

(** C7, evaluated where it fails.  [setApiConfig("httpx://bad", "tok")]
    passes both scheme tests ([startsWith('http')] in [setApiConfig] and
    in [validateConfig]) and the URL is stored and written to the file. *)
Theorem setApiConfig_accepts_http_word :
  badScheme "httpx://bad"
  /\ exists s',
       ConfigService.setApiConfig "httpx://bad" "tok" freshStore
       = (inr tt, s')
       /\ PartialConfig.apiUrl (ConfigService.config s') = Some "httpx://bad"
       /\ ConfigService.file s' = Some (ConfigService.config s')
       /\ ConfigService.getConfig s' <> ConfigService.getConfig freshStore.
Proof.
  split.
  - unfold badScheme. split; [discriminate | split; reflexivity].
  - eexists. split; [reflexivity|]. repeat split.
    intro H. apply (f_equal LLMConfig.apiUrl) in H. discriminate H.
Qed.

Lemma Keeps_spread (old c : PartialConfig.t) (f f' : option PartialConfig.t)
                   (w w' : bool) :
  Keeps c (ConfigService.getConfig (ConfigService.mk old f w))
          (ConfigService.getConfig
             (ConfigService.mk (PartialConfig.spread old c) f' w')).
Proof.
  unfold Keeps, ConfigService.getConfig, PartialConfig.spread; simpl.
  repeat split; intros ->; reflexivity.
Qed.

(** C9.  When the update passes validation and the file cannot be
    written, [updateConfig] throws ['Failed to save configuration'], the
    file is as before, and [this.config] already holds the merge: the
    next [getConfig] returns every field of the update, and for every
    field the update leaves out the value it returned before. *)
Theorem updateConfig_save_failure (s : ConfigService.t)
                                  (c : PartialConfig.t) :
  fst (ConfigService.validateConfig c s) = inr tt ->
  ConfigService.writable s = false ->
  exists s',
    ConfigService.updateConfig c s
    = (inl (Js.newError "Failed to save configuration"), s')
    /\ ConfigService.config s'
       = PartialConfig.spread (ConfigService.config s) c
    /\ ConfigService.file s' = ConfigService.file s
    /\ Carries c (ConfigService.getConfig s')
    /\ Keeps c (ConfigService.getConfig s) (ConfigService.getConfig s').
Proof.
  intros Hv Hw.
  rewrite validateConfig_unfold in Hv.
  destruct (firstViolation c) eqn:Hc; [discriminate Hv|].
  rewrite (updateConfig_passes s c Hc).
  unfold ConfigService.saveConfig; simpl. rewrite Hw.
  eexists. split; [reflexivity|]. simpl.
  split; [reflexivity|]. split; [reflexivity|].
  split; [apply Carries_spread|].
  destruct s as [old f w]. apply Keeps_spread.
Qed.

Lemma updateConfig_save_failure_witness :
  fst (ConfigService.validateConfig
         (PartialConfig.mk None None None (Some 500) None None None)
         readOnlyStore) = inr tt
  /\ ConfigService.writable readOnlyStore = false
  /\ exists s',
       ConfigService.updateConfig
         (PartialConfig.mk None None None (Some 500) None None None)
         readOnlyStore
       = (inl (Js.newError "Failed to save configuration"), s')
       /\ ConfigService.config s'
          = PartialConfig.spread
              (ConfigService.config readOnlyStore)
              (PartialConfig.mk None None None (Some 500) None None None)
       /\ ConfigService.file s' = ConfigService.file readOnlyStore
       /\ Carries (PartialConfig.mk None None None (Some 500) None None None)
                  (ConfigService.getConfig s')
       /\ Keeps (PartialConfig.mk None None None (Some 500) None None None)
                (ConfigService.getConfig readOnlyStore)
                (ConfigService.getConfig s').
Proof.
  split; [reflexivity|]. split; [reflexivity|].
  apply updateConfig_save_failure; reflexivity.
Defined.

(** The masked token of a stored token of ten characters followed by
    three dots is that very token. *)
Example getMaskedConfig_dotted_token :
  let s := ConfigService.mk
             (PartialConfig.mk None (Some "abcdefghij...")
                               None None None None None) None true in
  LLMConfig.apiToken (ConfigService.getMaskedConfig s)
  = LLMConfig.apiToken (ConfigService.getConfig s).
Proof. reflexivity. Qed.

(** C6 as stated fails: with no token stored the masked token is the
    empty string, which is the raw token. *)
Lemma getMaskedConfig_empty_token :
  ~ (forall s : ConfigService.t,
       LLMConfig.apiToken (ConfigService.getMaskedConfig s)
       <> LLMConfig.apiToken (ConfigService.getConfig s)).
Proof.
  intro H. apply (H freshStore). reflexivity.
Qed.

(** C6, amended.  An empty stored token is shown as the empty string.  A
    non-empty one is shown as its first ten characters (all of it when
    it is shorter) followed by ["..."]: no more than ten characters of
    the raw token, and a string different from the raw token unless that
    has thirteen characters.  An empty URL is shown as
    ["[Not configured]"]. *)
Theorem getMaskedConfig_masks (s : ConfigService.t) :
  let raw := LLMConfig.apiToken (ConfigService.getConfig s) in
  let shown := Js.substring0 10 raw in
  let m := ConfigService.getMaskedConfig s in
  (raw = "" -> LLMConfig.apiToken m = "")
  /\ (raw <> "" ->
      LLMConfig.apiToken m = shown ++ "..."
      /\ String.prefix shown raw = true
      /\ (String.length shown <= 10)%nat
      /\ (String.length raw <> 13%nat -> LLMConfig.apiToken m <> raw))
  /\ (LLMConfig.apiUrl (ConfigService.getConfig s) = ""
      -> LLMConfig.apiUrl m = "[Not configured]").
Proof.
  intros raw shown m. subst m. unfold ConfigService.getMaskedConfig.
  cbn [LLMConfig.apiToken LLMConfig.apiUrl]. fold raw. split; [|split].
  - intro H. apply truthy_str_false in H. now rewrite H.
  - intro H. apply truthy_str_spec in H. rewrite H. fold shown.
    split; [reflexivity|]. split; [apply substring0_prefix|].
    assert (Hlen : String.length shown = Nat.min 10 (String.length raw))
      by apply substring0_length.
    clearbody shown raw.
    split; [lia|].
    intros H13 Heq. apply (f_equal String.length) in Heq.
    rewrite append_length, Hlen in Heq.
    change (String.length "...") with 3%nat in Heq. lia.
  - intro H. unfold Js.or_str.
    apply truthy_str_false in H. now rewrite H.
Qed.

Lemma getMaskedConfig_masks_witness :
  LLMConfig.apiToken (ConfigService.getConfig readyStore) <> ""
  /\ LLMConfig.apiToken (ConfigService.getMaskedConfig readyStore)
     = "hf_0123456..."
  /\ LLMConfig.apiToken (ConfigService.getMaskedConfig readyStore)
     <> LLMConfig.apiToken (ConfigService.getConfig readyStore)
  /\ LLMConfig.apiUrl (ConfigService.getMaskedConfig freshStore)
     = "[Not configured]".
Proof.
  assert (Hne : LLMConfig.apiToken (ConfigService.getConfig readyStore) <> "")
    by discriminate.
  destruct (getMaskedConfig_masks readyStore) as (_ & Htok & _).
  destruct (Htok Hne) as (Heq & _ & _ & Hdiff).
  destruct (getMaskedConfig_masks freshStore) as (_ & _ & Hurl).
  split; [exact Hne|]. split; [exact Heq|].
  split; [apply Hdiff; discriminate | apply Hurl; reflexivity].
Defined.

(* ================================================================== *)
(** ** The completion gateway: [validateRequest] *)

Section ValidateRequest.

Import LLMService.

Lemma pushIf_keeps (cond : bool) (msg m : string) (errors : list string) :
  In m errors -> In m (pushIf cond msg errors).
Proof.
  intro H. unfold pushIf. destruct cond; [|exact H].
  apply in_or_app. now left.
Qed.

Lemma pushIf_pushes (msg : string) (errors : list string) :
  In msg (pushIf true msg errors).
Proof.
  unfold pushIf. apply in_or_app. right. now left.
Qed.

Lemma pushIf_skips (msg : string) (errors : list string) :
  pushIf false msg errors = errors.
Proof. reflexivity. Qed.

Lemma In_not_valid (m : string) (errors : list string) :
  In m errors -> (List.length errors =? 0)%nat = false.
Proof.
  destruct errors; [contradiction | reflexivity].
Qed.

(** The guard [x && (x < lo || x > hi)] fires on a number outside the
    bounds unless that number is zero. *)
Lemma presentOutside_fires (lo hi v : Js.number) :
  ~ (v == 0)%Q -> outside lo hi v -> presentOutside (Some v) lo hi = true.
Proof.
  intros Hnz Ho. unfold presentOutside.
  apply truthy_num_spec in Hnz. apply outside_spec in Ho.
  now rewrite Hnz, Ho.
Qed.

Lemma presentOutside_quiet (lo hi : Js.number) (x : option Js.number) :
  absentOrWithin lo hi x -> presentOutside x lo hi = false.
Proof.
  destruct x as [v|]; simpl; [|reflexivity].
  intro Hw. apply within_spec in Hw. rewrite Hw. apply andb_false_r.
Qed.

(** A [max_tokens] outside the bounds is reported, provided it is not
    zero. *)
Lemma validateRequest_max_tokens (request : LLMRequest.t) (n : Js.number) :
  LLMRequest.max_tokens request = Some n ->
  ~ (n == 0)%Q -> outside 1 4000 n ->
  valid (validateRequest request) = false
  /\ In "max_tokens must be between 1 and 4000"
        (errors (validateRequest request)).
Proof.
  intros Hn Hnz Ho.
  assert (Hin : In "max_tokens must be between 1 and 4000"
                   (errors (validateRequest request))).
  { unfold validateRequest; cbn [errors]. rewrite Hn.
    rewrite (presentOutside_fires 1 4000 n Hnz Ho).
    apply pushIf_keeps, pushIf_pushes. }
  split; [|exact Hin].
  unfold validateRequest in *; cbn [valid errors] in *.
  exact (In_not_valid _ _ Hin).
Qed.

(** A [temperature] outside the bounds is always reported: zero lies
    within them. *)
Lemma validateRequest_temperature (request : LLMRequest.t) (x : Js.number) :
  LLMRequest.temperature request = Some x ->
  outside 0 2 x ->
  valid (validateRequest request) = false
  /\ In "temperature must be between 0 and 2"
        (errors (validateRequest request)).
Proof.
  intros Hx Ho.
  assert (Hnz : ~ (x == 0)%Q).
  { intro E. destruct Ho as [Ho|Ho]; rewrite E in Ho;
      [exact (Qlt_irrefl _ Ho) | discriminate Ho]. }
  assert (Hin : In "temperature must be between 0 and 2"
                   (errors (validateRequest request))).
  { unfold validateRequest; cbn [errors]. rewrite Hx.
    rewrite (presentOutside_fires 0 2 x Hnz Ho).
    apply pushIf_pushes. }
  split; [|exact Hin].
  unfold validateRequest in *; cbn [valid errors] in *.
  exact (In_not_valid _ _ Hin).
Qed.

(** A request within all the bounds is valid, with no message. *)
Lemma validateRequest_accepts (request : LLMRequest.t) :
  goodPrompt (LLMRequest.prompt request) ->
  absentOrWithin 1 4000 (LLMRequest.max_tokens request) ->
  absentOrWithin 0 2 (LLMRequest.temperature request) ->
  validateRequest request = mkValidation true [].
Proof.
  intros [Hblank Hlen] Hm Ht. unfold validateRequest.
  rewrite (presentOutside_quiet _ _ _ Hm), (presentOutside_quiet _ _ _ Ht).
  assert (Hp : Js.truthy_str (LLMRequest.prompt request) = true).
  { apply truthy_str_spec. intro E. apply Hblank. now rewrite E. }
  assert (Hl : (String.length (Js.trim (LLMRequest.prompt request)) =? 0)%nat
               = false).
  { destruct (Js.trim (LLMRequest.prompt request));
      [contradiction | reflexivity]. }
  assert (Hz : (Z.of_nat (String.length (LLMRequest.prompt request))
                >? 10000)%Z = false).
  { rewrite Z.gtb_ltb. apply Z.ltb_ge. exact Hlen. }
  rewrite Hp, Hl, Hz. reflexivity.
Qed.

End ValidateRequest.

(** The scenario of the specification: ["Hello"] with [maxTokens = 5000]. *)
Example validateRequest_5000 :
  LLMService.validateRequest (LLMRequest.mk "" "Hello" (Some 5000) None)
  = LLMService.mkValidation false ["max_tokens must be between 1 and 4000"].
Proof. reflexivity. Qed.

(** C1, evaluated where it fails.  [max_tokens = 0] is present and
    outside [1, 4000], yet the request is reported valid with no message:
    the guard [request.max_tokens && ...] takes the number zero for an
    absent field.  (Every other number outside the bounds is reported,
    [validateRequest_max_tokens] and [validateRequest_temperature], and a
    request within the bounds is valid, [validateRequest_accepts].) *)
Theorem validateRequest_zero_max_tokens :
  LLMRequest.max_tokens (LLMRequest.mk "" "Hello" (Some 0) None) = Some 0
  /\ outside 1 4000 0
  /\ LLMService.validateRequest (LLMRequest.mk "" "Hello" (Some 0) None)
     = LLMService.mkValidation true [].
Proof.
  split; [reflexivity|]. split; [left; reflexivity | reflexivity].
Qed.

(* ================================================================== *)
(** ** The completion gateway: [sendChatCompletion] *)

Section SendChatCompletion.

Import LLMService.

Variable net : Axios.Network.
Variable cs : ConfigService.t.

(** With endpoint and token stored, exactly one call goes out, and it is
    [call] on the merged configuration. *)
Lemma sendChatCompletion_configured (request : LLMRequest.t) :
  LLMConfig.apiUrl (ConfigService.getConfig cs) <> "" ->
  LLMConfig.apiToken (ConfigService.getConfig cs) <> "" ->
  sendChatCompletion net cs request =
  (match attempt net (call (ConfigService.getConfig cs) request) with
   | inl error => inl (classify error)
   | inr d => inr d
   end,
   [call (ConfigService.getConfig cs) request]).
Proof.
  intros Hu Ht. unfold sendChatCompletion.
  apply truthy_str_spec in Hu. apply truthy_str_spec in Ht.
  rewrite Hu, Ht. simpl.
  now destruct (attempt net (call (ConfigService.getConfig cs) request)).
Qed.

(** A field of the request that is truthy is the one sent. *)
Lemma payload_request_wins (config : LLMConfig.t) (request : LLMRequest.t)
                           (n x : Js.number) :
  LLMRequest.model request <> "" ->
  LLMRequest.max_tokens request = Some n -> ~ (n == 0)%Q ->
  LLMRequest.temperature request = Some x -> ~ (x == 0)%Q ->
  payload config request
  = Axios.mkPayload (LLMRequest.model request) (LLMRequest.prompt request) n x.
Proof.
  intros Hm Hn Hnz Hx Hxz. unfold payload.
  rewrite Hn, Hx. unfold Js.or_opt_num, Js.or_num, Js.or_str.
  apply truthy_str_spec in Hm. apply truthy_num_spec in Hnz, Hxz.
  now rewrite Hm, Hnz, Hxz.
Qed.

(** A field the request leaves out comes from the configuration, when
    the configured value is truthy. *)
Lemma payload_defaults (config : LLMConfig.t) (prompt : string) :
  LLMConfig.defaultModel config <> "" ->
  ~ (LLMConfig.maxTokens config == 0)%Q ->
  ~ (LLMConfig.temperature config == 0)%Q ->
  payload config (LLMRequest.mk "" prompt None None)
  = Axios.mkPayload (LLMConfig.defaultModel config) prompt
                    (LLMConfig.maxTokens config)
                    (LLMConfig.temperature config).
Proof.
  intros Hm Hn Hx. unfold payload, Js.or_opt_num, Js.or_num, Js.or_str; simpl.
  apply truthy_str_spec in Hm. apply truthy_num_spec in Hn, Hx.
  now rewrite Hm, Hn, Hx.
Qed.

(** A reply with a status from 400 to 499 is accepted by the client and
    thrown by hand inside [try], without the reply attached: [catch]
    takes it for a failure of another kind and never reads the body. *)
Lemma sendChatCompletion_client_error (request : LLMRequest.t)
                                      (r : Axios.Response) :
  LLMConfig.apiUrl (ConfigService.getConfig cs) <> "" ->
  LLMConfig.apiToken (ConfigService.getConfig cs) <> "" ->
  net (call (ConfigService.getConfig cs) request) = Axios.Replied r ->
  (400 <= Axios.status r < 500)%Z ->
  fst (sendChatCompletion net cs request)
  = inl (Js.newError
           ("Request failed: LLM API returned error: "
            ++ Js.show (Axios.status r) ++ " - " ++ Axios.statusText r)).
Proof.
  intros Hu Ht Hnet [Hlo Hhi].
  rewrite (sendChatCompletion_configured request Hu Ht).
  unfold attempt, Axios.post, validateStatus. rewrite Hnet.
  apply Z.ltb_lt in Hhi. rewrite Hhi.
  apply Z.geb_le in Hlo. rewrite Hlo. reflexivity.
Qed.

(** A reply with a status of 500 or more is rejected by the client with
    the reply attached, and here [catch] does report the message of the
    body. *)
Lemma sendChatCompletion_server_error (request : LLMRequest.t)
                                      (r : Axios.Response) :
  LLMConfig.apiUrl (ConfigService.getConfig cs) <> "" ->
  LLMConfig.apiToken (ConfigService.getConfig cs) <> "" ->
  net (call (ConfigService.getConfig cs) request) = Axios.Replied r ->
  (500 <= Axios.status r)%Z ->
  fst (sendChatCompletion net cs request)
  = inl (Js.newError
           ("LLM API Error (" ++ Js.show (Axios.status r) ++ "): "
            ++ Js.or_opt_str (upstreamMessage r) (Axios.statusText r))).
Proof.
  intros Hu Ht Hnet Hhi.
  rewrite (sendChatCompletion_configured request Hu Ht).
  unfold attempt, Axios.post, validateStatus. rewrite Hnet.
  apply Z.ltb_ge in Hhi. rewrite Hhi. reflexivity.
Qed.

(** No reply at all: the message asks to check the URL and the network. *)
Lemma sendChatCompletion_no_reply (request : LLMRequest.t) (msg : string) :
  LLMConfig.apiUrl (ConfigService.getConfig cs) <> "" ->
  LLMConfig.apiToken (ConfigService.getConfig cs) <> "" ->
  net (call (ConfigService.getConfig cs) request) = Axios.NoReply msg ->
  fst (sendChatCompletion net cs request)
  = inl (Js.newError
           "LLM API is not responding. Please check the API URL and network connection.").
Proof.
  intros Hu Ht Hnet.
  rewrite (sendChatCompletion_configured request Hu Ht).
  unfold attempt, Axios.post. rewrite Hnet. reflexivity.
Qed.

(** No error of [sendChatCompletion] reads ['No response from LLM']. *)
Lemma sendChatCompletion_message (request : LLMRequest.t) (e : Error) :
  fst (sendChatCompletion net cs request) = inl e ->
  Js.message e <> "No response from LLM".
Proof.
  unfold sendChatCompletion.
  destruct (negb (Js.truthy_str (LLMConfig.apiUrl (ConfigService.getConfig cs)))).
  { simpl. intro H. injection H as <-. discriminate. }
  destruct (negb (Js.truthy_str (LLMConfig.apiToken (ConfigService.getConfig cs)))).
  { simpl. intro H. injection H as <-. discriminate. }
  destruct (attempt net _) as [error|d]; simpl; [|discriminate].
  intro H. injection H as <-. unfold classify.
  destruct (Js.response error); [discriminate|].
  destruct (Js.request error); discriminate.
Qed.

End SendChatCompletion.

(** C2, evaluated where it fails.  The request carries [temperature: 0],
    a value within [0, 2] that [validateRequest] accepts; the stored
    configuration has the default temperature 0.3.  The one call that
    goes out carries 0.3: [request.temperature || config.temperature]
    takes the number zero for an absent field. *)
Theorem sendChatCompletion_zero_temperature (net : Axios.Network) :
  let request := LLMRequest.mk "" "hi" None (Some 0) in
  LLMService.validateRequest request = LLMService.mkValidation true []
  /\ within 0 2 0
  /\ exists c,
       snd (LLMService.sendChatCompletion net readyStore request) = [c]
       /\ Axios.temperature (Axios.payload c) = (3 # 10)
       /\ ~ (Axios.temperature (Axios.payload c) == 0)%Q.
Proof.
  cbv zeta. split; [reflexivity|].
  split; [split; discriminate|].
  rewrite sendChatCompletion_configured by discriminate.
  eexists. split; [reflexivity|]. split; [reflexivity | discriminate].
Qed.

(** C4.  When the stored endpoint or the stored token is empty,
    [sendChatCompletion] throws the message that names the missing one
    (the endpoint first) and no call goes out, whatever the network. *)
Theorem sendChatCompletion_unconfigured (net : Axios.Network)
                                        (cs : ConfigService.t)
                                        (request : LLMRequest.t) :
  LLMConfig.apiUrl (ConfigService.getConfig cs) = ""
  \/ LLMConfig.apiToken (ConfigService.getConfig cs) = "" ->
  LLMService.sendChatCompletion net cs request =
  (inl (Js.newError
          (if (LLMConfig.apiUrl (ConfigService.getConfig cs) =? "")%string
           then "LLM API URL not configured"
           else "LLM API token not configured")),
   []).
Proof.
  intro H. unfold LLMService.sendChatCompletion, Js.truthy_str.
  destruct (LLMConfig.apiUrl (ConfigService.getConfig cs) =? "")%string eqn:Eu;
    [reflexivity|].
  destruct H as [H|H].
  - apply String.eqb_neq in Eu. contradiction.
  - rewrite H. reflexivity.
Qed.

Lemma sendChatCompletion_unconfigured_witness :
  (LLMConfig.apiUrl (ConfigService.getConfig freshStore) = ""
   \/ LLMConfig.apiToken (ConfigService.getConfig freshStore) = "")
  /\ LLMService.sendChatCompletion silent freshStore
       (LLMRequest.mk "" "hi" None None)
     = (inl (Js.newError "LLM API URL not configured"), []).
Proof.
  split; [left; reflexivity|].
  apply (sendChatCompletion_unconfigured silent freshStore
           (LLMRequest.mk "" "hi" None None)).
  left; reflexivity.
Defined.

(** C5, evaluated where it fails.  The endpoint replies 404 with the body
    [{error: {message: "model not found"}}].  The error thrown reads
    ['Request failed: LLM API returned error: 404 - Not Found']: it has
    the status, and the status text in place of the message of the body,
    which it does not contain.  Every status from 400 to 499 goes this
    way ([sendChatCompletion_client_error]); the branch of [catch] that
    reads the body is reached only by a status of 500 or more
    ([sendChatCompletion_server_error]). *)
Theorem sendChatCompletion_404 (request : LLMRequest.t) :
  LLMService.upstreamMessage modelNotFound = Some "model not found"
  /\ exists e,
       LLMService.sendChatCompletion (replying modelNotFound) readyStore request
       = (inl e,
          [LLMService.call (ConfigService.getConfig readyStore) request])
       /\ Js.message e
          = "Request failed: LLM API returned error: 404 - Not Found"
       /\ Js.includes (Js.message e) "404" = true
       /\ Js.includes (Js.message e) "model not found" = false.
Proof.
  split; [reflexivity|].
  rewrite sendChatCompletion_configured by discriminate.
  eexists. split; [reflexivity|]. repeat split.
Qed.

(* ================================================================== *)
(** ** The completion gateway: [sendCompletion] and [testConnection] *)

Section SendCompletion.

Import LLMService.

Variable net : Axios.Network.
Variable cs : ConfigService.t.

(** [sendCompletion] makes the calls of [sendChatCompletion] and no
    other. *)
Lemma sendCompletion_calls (prompt : string) (maxTokens : option Js.number) :
  snd (sendCompletion net cs prompt maxTokens)
  = snd (sendChatCompletion net cs (LLMRequest.mk "" prompt maxTokens None)).
Proof.
  unfold sendCompletion.
  destruct (sendChatCompletion net cs _) as [[e|response] log];
    [reflexivity|].
  destruct (LLMResponse.choices response) as [[|choice rest]|]; reflexivity.
Qed.

(** An error of [sendChatCompletion] passes through unchanged. *)
Lemma sendCompletion_propagates (prompt : string)
                                (maxTokens : option Js.number) (e : Error) :
  fst (sendChatCompletion net cs (LLMRequest.mk "" prompt maxTokens None))
  = inl e ->
  fst (sendCompletion net cs prompt maxTokens) = inl e.
Proof.
  unfold sendCompletion.
  destruct (sendChatCompletion net cs _) as [[e'|response] log]; simpl;
    [intro H; injection H as ->; reflexivity | discriminate].
Qed.

(** What [sendCompletion] makes of a reply that came back. *)
Lemma sendCompletion_reply (prompt : string) (maxTokens : option Js.number)
                           (response : LLMResponse.t) :
  fst (sendChatCompletion net cs (LLMRequest.mk "" prompt maxTokens None))
  = inr response ->
  fst (sendCompletion net cs prompt maxTokens)
  = match LLMResponse.choices response with
    | Some (choice :: _) => inr (choiceText choice)
    | _ => inl (Js.newError "No response from LLM")
    end.
Proof.
  unfold sendCompletion.
  destruct (sendChatCompletion net cs _) as [[e'|response'] log]; simpl;
    [discriminate|].
  intro H. injection H as ->.
  destruct (LLMResponse.choices response) as [[|choice rest]|]; reflexivity.
Qed.

(** A choice with no text and no message content reads as the empty
    string. *)
Lemma choiceText_blank (choice : LLMResponse.Choice) :
  LLMResponse.text choice = None ->
  messageContent choice = None ->
  choiceText choice = "".
Proof.
  intros Ht Hc. unfold choiceText. now rewrite Ht, Hc.
Qed.

End SendCompletion.

(** The scenario of the specification: on a network that never replies,
    [sendCompletion] fails with the message of a network failure, and
    [testConnection] returns a failure. *)
Example testConnection_timeout :
  fst (LLMService.sendCompletion silent readyStore "hi" None)
  = inl (Js.newError
           "LLM API is not responding. Please check the API URL and network connection.")
  /\ fst (LLMService.testConnection silent readyStore 1000 31000)
     = LLMService.mkTestResult false
         "Connection failed: LLM API is not responding. Please check the API URL and network connection."
         None.
Proof. split; reflexivity. Qed.

(** C8.  [testConnection] returns a result on every network and every
    store.  When the completion fails, the result is a failure whose
    message is ['Connection failed: '] followed by the message of the
    error, so it contains ["failed"], and it has no response time.  When
    the completion returns a text, the result is a success whose message
    shows the first hundred characters of the text at most, with the time
    between the two clock readings. *)
Theorem testConnection_returns (net : Axios.Network) (cs : ConfigService.t)
                               (startTime endTime : Z) :
  exists result,
    fst (LLMService.testConnection net cs startTime endTime) = result
    /\ ((exists e,
           fst (LLMService.sendCompletion net cs LLMService.testPrompt (Some 20))
           = inl e
           /\ LLMService.success result = false
           /\ LLMService.message result
              = "Connection failed: " ++ Js.message e
           /\ Js.includes (LLMService.message result) "failed" = true
           /\ LLMService.responseTime result = None)
        \/ (exists text,
              fst (LLMService.sendCompletion net cs LLMService.testPrompt
                     (Some 20))
              = inr text
              /\ LLMService.success result = true
              /\ LLMService.message result
                 = "Connection successful! Response: "
                   ++ Js.substring0 100 text ++ "..."
              /\ String.prefix (Js.substring0 100 text) text = true
              /\ (String.length (Js.substring0 100 text) <= 100)%nat
              /\ LLMService.responseTime result
                 = Some (endTime - startTime)%Z)).
Proof.
  eexists. split; [reflexivity|].
  unfold LLMService.testConnection.
  destruct (LLMService.sendCompletion net cs LLMService.testPrompt (Some 20))
    as [[e|text] log]; cbn [fst].
  - left. exists e. cbn [LLMService.success LLMService.message
                          LLMService.responseTime].
    split; [reflexivity|]. split; [reflexivity|]. split; [reflexivity|].
    split; [|reflexivity].
    exact (includes_append "Connection " "failed" (": " ++ Js.message e)).
  - right. exists text. cbn [LLMService.success LLMService.message
                              LLMService.responseTime].
    split; [reflexivity|]. split; [reflexivity|]. split; [reflexivity|].
    split; [apply substring0_prefix|]. split; [|reflexivity].
    rewrite substring0_length. apply Nat.le_min_l.
Qed.

(** C10.  When [sendChatCompletion] returns a reply, [sendCompletion]
    returns the empty string for a first choice that has neither a text
    nor a message content, and throws ['No response from LLM'] when the
    list of choices is absent or empty.  It throws that message in no
    other case: not for another reply, and no error that passes through
    from [sendChatCompletion] reads so. *)
Theorem sendCompletion_first_choice (net : Axios.Network)
                                    (cs : ConfigService.t) (prompt : string)
                                    (maxTokens : option Js.number) :
  (forall response choice rest,
      fst (LLMService.sendChatCompletion net cs
             (LLMRequest.mk "" prompt maxTokens None)) = inr response ->
      LLMResponse.choices response = Some (choice :: rest) ->
      LLMResponse.text choice = None ->
      LLMService.messageContent choice = None ->
      fst (LLMService.sendCompletion net cs prompt maxTokens) = inr "")
  /\ (fst (LLMService.sendCompletion net cs prompt maxTokens)
      = inl (Js.newError "No response from LLM")
      <-> exists response,
            fst (LLMService.sendChatCompletion net cs
                   (LLMRequest.mk "" prompt maxTokens None)) = inr response
            /\ (LLMResponse.choices response = None
                \/ LLMResponse.choices response = Some [])).
Proof.
  split.
  - intros response choice rest Hsent Hch Ht Hc.
    rewrite (sendCompletion_reply net cs prompt maxTokens response Hsent), Hch.
    now rewrite (choiceText_blank choice Ht Hc).
  - split.
    + intro Hgot.
      destruct (fst (LLMService.sendChatCompletion net cs
                       (LLMRequest.mk "" prompt maxTokens None)))
        as [e|response] eqn:Hsent.
      * pose proof (sendCompletion_propagates net cs prompt maxTokens e Hsent)
          as Hp.
        rewrite Hp in Hgot. injection Hgot as He.
        exfalso.
        apply (sendChatCompletion_message net cs _ e Hsent).
        now rewrite He.
      * exists response. split; [reflexivity|].
        rewrite (sendCompletion_reply net cs prompt maxTokens response Hsent)
          in Hgot.
        destruct (LLMResponse.choices response) as [[|choice rest]|];
          [now right | discriminate Hgot | now left].
    + intros (response & Hsent & Hch).
      rewrite (sendCompletion_reply net cs prompt maxTokens response Hsent).
      destruct Hch as [-> | ->]; reflexivity.
Qed.

Lemma sendCompletion_first_choice_witness :
  fst (LLMService.sendChatCompletion (replying blankChoice) readyStore
         (LLMRequest.mk "" "hi" None None))
  = inr (Axios.data blankChoice)
  /\ fst (LLMService.sendCompletion (replying blankChoice) readyStore "hi" None)
     = inr "".
Proof.
  split; [reflexivity|].
  destruct (sendCompletion_first_choice (replying blankChoice) readyStore
              "hi" None) as [Hblank _].
  apply (Hblank (Axios.data blankChoice) (LLMResponse.mkChoice None None) []);
    reflexivity.
Defined.

(* ================================================================== *)
(** ** More of the configuration store *)

Section ConfigStatus.

Import ConfigService.

Variable s : ConfigService.t.

(** X1.  [getConfigStatus] reports the service configured exactly when
    endpoint and token are both non-empty, and lists the empty ones, the
    endpoint first: ["apiUrl"] is listed exactly when the endpoint is
    empty, ["apiToken"] exactly when the token is, and nothing else is. *)
Theorem getConfigStatus_exact :
  (fst (getConfigStatus s) = true
   <-> LLMConfig.apiUrl (getConfig s) <> ""
       /\ LLMConfig.apiToken (getConfig s) <> "")
  /\ (In "apiUrl" (snd (getConfigStatus s))
      <-> LLMConfig.apiUrl (getConfig s) = "")
  /\ (In "apiToken" (snd (getConfigStatus s))
      <-> LLMConfig.apiToken (getConfig s) = "")
  /\ (exists pre post,
        (pre ++ snd (getConfigStatus s) ++ post)%list = ["apiUrl"; "apiToken"])
  /\ (fst (getConfigStatus s) = true <-> snd (getConfigStatus s) = []).
Proof.
  unfold getConfigStatus; cbn [fst snd].
  pose proof (truthy_str_spec (LLMConfig.apiUrl (getConfig s))) as Hu.
  pose proof (truthy_str_false (LLMConfig.apiUrl (getConfig s))) as Hu'.
  pose proof (truthy_str_spec (LLMConfig.apiToken (getConfig s))) as Ht.
  pose proof (truthy_str_false (LLMConfig.apiToken (getConfig s))) as Ht'.
  destruct (Js.truthy_str (LLMConfig.apiUrl (getConfig s)));
    destruct (Js.truthy_str (LLMConfig.apiToken (getConfig s)));
    cbn [app List.length Nat.eqb];
    (split; [|split; [|split; [|split]]]);
    try (simpl; intuition (try discriminate; try congruence); fail).
  - exists [], ["apiUrl"; "apiToken"]. reflexivity.
  - exists ["apiUrl"], []. reflexivity.
  - exists [], ["apiToken"]. reflexivity.
  - exists [], []. reflexivity.
Qed.

(** X2.  [isConfigured] and [getConfigStatus().configured] agree. *)
Theorem isConfigured_status :
  isConfigured s = fst (getConfigStatus s).
Proof.
  unfold isConfigured, getConfigStatus; cbn [fst].
  destruct (Js.truthy_str (LLMConfig.apiUrl (getConfig s)));
    destruct (Js.truthy_str (LLMConfig.apiToken (getConfig s))); reflexivity.
Qed.

End ConfigStatus.

Section ConfigValidation.

Import ConfigService.

Lemma checkApiUrl_accepts (c : PartialConfig.t) :
  checkApiUrl c = None <-> urlAccepted (PartialConfig.apiUrl c).
Proof.
  unfold checkApiUrl, urlAccepted.
  destruct (PartialConfig.apiUrl c) as [u|]; [|tauto].
  pose proof (truthy_str_false u) as Hu.
  destruct (Js.truthy_str u); destruct (Js.startsWith u "http"); simpl;
    intuition (try discriminate; try congruence).
Qed.

Lemma bounds_accept (lo hi : Js.number) (msg : string)
                    (x : option Js.number) :
  match x with
  | Some v => if Js.lt v lo || Js.gt v hi then Some msg else None
  | None => None
  end = None
  <-> absentOrWithin lo hi x.
Proof.
  destruct x as [v|]; simpl; [|tauto].
  rewrite <- within_spec.
  destruct (Js.lt v lo || Js.gt v hi); intuition discriminate.
Qed.

Lemma firstViolation_accepts (c : PartialConfig.t) :
  firstViolation c = None <-> Accepted c.
Proof.
  unfold Accepted.
  rewrite <- checkApiUrl_accepts.
  rewrite <- (bounds_accept 1 4000 "maxTokens must be between 1 and 4000").
  rewrite <- (bounds_accept 0 2 "temperature must be between 0 and 2").
  rewrite <- (bounds_accept 1000 120000
                "requestTimeout must be between 1000ms and 120000ms").
  fold (checkMaxTokens c) (checkTemperature c) (checkRequestTimeout c).
  unfold firstViolation.
  destruct (checkApiUrl c); [intuition discriminate|].
  destruct (checkMaxTokens c); [intuition discriminate|].
  destruct (checkTemperature c); [intuition discriminate|].
  tauto.
Qed.

(** What a successful [updateConfig] did. *)
Lemma updateConfig_returns (s s' : ConfigService.t) (c : PartialConfig.t) :
  updateConfig c s = (inr tt, s') ->
  firstViolation c = None
  /\ writable s = true
  /\ s' = mk (PartialConfig.spread (config s) c)
             (Some (PartialConfig.spread (config s) c)) true.
Proof.
  intro H.
  destruct (firstViolation c) as [msg|] eqn:Hc.
  - rewrite (updateConfig_throws s c msg Hc) in H. discriminate H.
  - rewrite (updateConfig_passes s c Hc) in H.
    unfold saveConfig in H; cbn [writable config] in H.
    destruct (writable s) eqn:Hw; [|discriminate H].
    injection H as <-. auto.
Qed.

Lemma over_assoc {A : Type} (a b c : option A) :
  PartialConfig.over (PartialConfig.over a b) c
  = PartialConfig.over a (PartialConfig.over b c).
Proof. now destruct c. Qed.

Lemma spread_assoc (a b c : PartialConfig.t) :
  PartialConfig.spread (PartialConfig.spread a b) c
  = PartialConfig.spread a (PartialConfig.spread b c).
Proof.
  unfold PartialConfig.spread; simpl. now rewrite !over_assoc.
Qed.

Lemma absentOrWithin_over (lo hi : Js.number) (a b : option Js.number) :
  absentOrWithin lo hi a -> absentOrWithin lo hi b ->
  absentOrWithin lo hi (PartialConfig.over a b).
Proof. now destruct b. Qed.

Lemma Accepted_spread (a b : PartialConfig.t) :
  Accepted a -> Accepted b -> Accepted (PartialConfig.spread a b).
Proof.
  intros (Hu & Hm & Ht & Hr) (Hu' & Hm' & Ht' & Hr').
  unfold Accepted, PartialConfig.spread; simpl.
  repeat split; try now apply absentOrWithin_over.
  now destruct (PartialConfig.apiUrl b).
Qed.

End ConfigValidation.

(** X3.  [validateConfig] returns exactly on the partial configurations
    whose present fields are within their bounds: a URL that is empty or
    starts with ["http"], [maxTokens] in [1, 4000], [temperature] in
    [0, 2], [requestTimeout] in [1000, 120000].  On every other one it
    throws, and it never writes to the store. *)
Theorem validateConfig_accepts_iff (s : ConfigService.t)
                                   (c : PartialConfig.t) :
  (fst (ConfigService.validateConfig c s) = inr tt <-> Accepted c)
  /\ snd (ConfigService.validateConfig c s) = s.
Proof.
  split; [|apply validateConfig_pure].
  rewrite validateConfig_unfold, <- firstViolation_accepts.
  destruct (firstViolation c); simpl; intuition discriminate.
Qed.

(** An accepted update on a writable file: what it stores and keeps. *)
Lemma updateConfig_accepted (s : ConfigService.t) (c : PartialConfig.t) :
  Accepted c ->
  ConfigService.writable s = true ->
  exists s',
    ConfigService.updateConfig c s = (inr tt, s')
    /\ ConfigService.file s' = Some (ConfigService.config s')
    /\ Carries c (ConfigService.getConfig s')
    /\ Keeps c (ConfigService.getConfig s) (ConfigService.getConfig s').
Proof.
  intros Ha Hw. apply firstViolation_accepts in Ha.
  rewrite (updateConfig_passes s c Ha).
  unfold ConfigService.saveConfig; simpl. rewrite Hw.
  eexists. split; [reflexivity|]. split; [reflexivity|].
  split; [apply Carries_spread|].
  destruct s as [old f w]. apply Keeps_spread.
Qed.

(** X4.  An update within the bounds on a writable file returns; the
    file then holds [this.config], every field of the update has its new
    value in [getConfig], and every field the update leaves out has the
    value it had. *)
Theorem updateConfig_persists (s : ConfigService.t) (c : PartialConfig.t) :
  Accepted c ->
  ConfigService.writable s = true ->
  exists s',
    ConfigService.updateConfig c s = (inr tt, s')
    /\ ConfigService.file s' = Some (ConfigService.config s')
    /\ Carries c (ConfigService.getConfig s')
    /\ Keeps c (ConfigService.getConfig s) (ConfigService.getConfig s').
Proof. exact (updateConfig_accepted s c). Qed.

Lemma updateConfig_persists_witness :
  Accepted (PartialConfig.mk None None None (Some 500) (Some 0) None None)
  /\ ConfigService.writable readyStore = true
  /\ exists s',
       ConfigService.updateConfig
         (PartialConfig.mk None None None (Some 500) (Some 0) None None)
         readyStore = (inr tt, s')
       /\ ConfigService.file s' = Some (ConfigService.config s')
       /\ Carries
            (PartialConfig.mk None None None (Some 500) (Some 0) None None)
            (ConfigService.getConfig s')
       /\ Keeps
            (PartialConfig.mk None None None (Some 500) (Some 0) None None)
            (ConfigService.getConfig readyStore)
            (ConfigService.getConfig s').
Proof.
  assert (Ha : Accepted
                 (PartialConfig.mk None None None (Some 500) (Some 0)
                                   None None)).
  { unfold Accepted, within; simpl.
    repeat split; discriminate. }
  split; [exact Ha|]. split; [reflexivity|].
  exact (updateConfig_persists readyStore _ Ha eq_refl).
Defined.

(** X5.  Two updates that succeed one after the other leave the store as
    the single update by their merge [{ ...c1, ...c2 }] does, which
    succeeds as well. *)
Theorem updateConfig_twice (s s1 s2 : ConfigService.t)
                           (c1 c2 : PartialConfig.t) :
  ConfigService.updateConfig c1 s = (inr tt, s1) ->
  ConfigService.updateConfig c2 s1 = (inr tt, s2) ->
  ConfigService.updateConfig (PartialConfig.spread c1 c2) s = (inr tt, s2).
Proof.
  intros H1 H2.
  apply updateConfig_returns in H1. destruct H1 as (Hc1 & Hw & ->).
  apply updateConfig_returns in H2. destruct H2 as (Hc2 & _ & ->).
  cbn [ConfigService.config].
  assert (Hc : firstViolation (PartialConfig.spread c1 c2) = None).
  { apply firstViolation_accepts, Accepted_spread;
      now apply firstViolation_accepts. }
  rewrite (updateConfig_passes s _ Hc).
  unfold ConfigService.saveConfig; simpl. rewrite Hw.
  now rewrite spread_assoc.
Qed.

Lemma updateConfig_twice_witness :
  exists s1 s2,
    ConfigService.updateConfig
      (PartialConfig.mk None None None (Some 500) None None None) readyStore
    = (inr tt, s1)
    /\ ConfigService.updateConfig
         (PartialConfig.mk None None None (Some 20) (Some 1) None None) s1
       = (inr tt, s2)
    /\ ConfigService.updateConfig
         (PartialConfig.spread
            (PartialConfig.mk None None None (Some 500) None None None)
            (PartialConfig.mk None None None (Some 20) (Some 1) None None))
         readyStore
       = (inr tt, s2).
Proof.
  eexists. eexists.
  assert (H1 : ConfigService.updateConfig
                 (PartialConfig.mk None None None (Some 500) None None None)
                 readyStore
               = (inr tt, snd (ConfigService.updateConfig
                   (PartialConfig.mk None None None (Some 500) None None None)
                   readyStore))) by reflexivity.
  assert (H2 : ConfigService.updateConfig
                 (PartialConfig.mk None None None (Some 20) (Some 1) None None)
                 (snd (ConfigService.updateConfig
                   (PartialConfig.mk None None None (Some 500) None None None)
                   readyStore))
               = (inr tt, snd (ConfigService.updateConfig
                   (PartialConfig.mk None None None (Some 20) (Some 1)
                                     None None)
                   (snd (ConfigService.updateConfig
                     (PartialConfig.mk None None None (Some 500) None None None)
                     readyStore))))) by reflexivity.
  split; [exact H1|]. split; [exact H2|].
  exact (updateConfig_twice _ _ _ _ _ H1 H2).
Defined.

Section Trimming.

Lemma trimEnd_cons (c : ascii) (s : string) :
  Js.is_space c = false ->
  Js.trimEnd (String c s) = String c (Js.trimEnd s).
Proof.
  intro H. cbn [Js.trimEnd]. rewrite H. now destruct (Js.trimEnd s).
Qed.

Lemma prefix_cons (a : ascii) (p u : string) :
  String.prefix (String a p) u = true ->
  exists u', u = String a u' /\ String.prefix p u' = true.
Proof.
  destruct u as [|b u']; cbn [String.prefix]; [discriminate|].
  destruct (ascii_dec a b) as [<-|]; [|discriminate].
  intro H. now exists u'.
Qed.

Lemma prefix_http (u : string) :
  Js.startsWith u "http" = true -> exists rest, u = "http" ++ rest.
Proof.
  unfold Js.startsWith. intro H.
  apply prefix_cons in H. destruct H as (u1 & -> & H).
  apply prefix_cons in H. destruct H as (u2 & -> & H).
  apply prefix_cons in H. destruct H as (u3 & -> & H).
  apply prefix_cons in H. destruct H as (u4 & -> & _).
  now exists u4.
Qed.

Lemma trim_http (rest : string) :
  Js.trim ("http" ++ rest) = "http" ++ Js.trimEnd rest.
Proof.
  unfold Js.trim. cbn [append Js.trimStart].
  change (Js.is_space "h") with false. cbv iota.
  now rewrite !trimEnd_cons by reflexivity.
Qed.

Lemma trim_nonempty (t : string) : Js.trim t <> "" -> t <> "".
Proof. intros H E. apply H. now rewrite E. Qed.

Lemma substring0_all (n : nat) (s : string) :
  (String.length s <= n)%nat -> Js.substring0 n s = s.
Proof.
  unfold Js.substring0. revert s.
  induction n as [|n IH]; intros [|c s] H; simpl in *; try reflexivity.
  - lia.
  - f_equal. apply IH. lia.
Qed.

End Trimming.

(** What [setApiConfig] stores when it accepts its arguments. *)
Lemma setApiConfig_accepted (s : ConfigService.t) (url token : string) :
  Js.startsWith url "http" = true ->
  Js.trim token <> "" ->
  ConfigService.writable s = true ->
  exists s',
    ConfigService.setApiConfig url token s = (inr tt, s')
    /\ LLMConfig.apiUrl (ConfigService.getConfig s') = Js.trim url
    /\ LLMConfig.apiToken (ConfigService.getConfig s') = Js.trim token
    /\ ConfigService.file s' = Some (ConfigService.config s')
    /\ ConfigService.isConfigured s' = true.
Proof.
  intros Hu Ht Hw.
  destruct (prefix_http url Hu) as [rest ->].
  assert (Htok : Js.truthy_str token = true)
    by now apply truthy_str_spec, trim_nonempty.
  assert (Hlen : (String.length (Js.trim token) =? 0)%nat = false)
    by (destruct (Js.trim token); [contradiction | reflexivity]).
  unfold ConfigService.setApiConfig.
  rewrite Hu, Htok, Hlen. cbn [negb orb Js.truthy_str].
  change (negb ("http" ++ rest =? "")%string) with true. cbn [negb orb].
  assert (Ha : Accepted
                 (PartialConfig.mk (Some (Js.trim ("http" ++ rest)))
                                   (Some (Js.trim token))
                                   None None None None None)).
  { unfold Accepted, urlAccepted, absentOrWithin.
    cbn [PartialConfig.apiUrl PartialConfig.maxTokens
         PartialConfig.temperature PartialConfig.requestTimeout].
    split; [right; rewrite trim_http; apply prefix_append | repeat split]. }
  destruct (updateConfig_accepted s _ Ha Hw) as (s' & Hup & Hf & Hc & _).
  exists s'. split; [exact Hup|].
  destruct Hc as (Hcu & Hct & _).
  specialize (Hcu _ eq_refl). specialize (Hct _ eq_refl).
  split; [exact Hcu|]. split; [exact Hct|]. split; [exact Hf|].
  unfold ConfigService.isConfigured. rewrite Hcu, Hct, trim_http.
  apply andb_true_intro. split; [reflexivity|].
  now apply truthy_str_spec.
Qed.

(** X6.  With a URL that starts with ["http"], a token that is not
    blank and a writable file, [setApiConfig] returns; the endpoint and
    the token that [getConfig] then gives are the arguments without the
    white space around them, they are in the file, and the service is
    configured. *)
Theorem setApiConfig_stores (s : ConfigService.t) (url token : string) :
  Js.startsWith url "http" = true ->
  Js.trim token <> "" ->
  ConfigService.writable s = true ->
  exists s',
    ConfigService.setApiConfig url token s = (inr tt, s')
    /\ LLMConfig.apiUrl (ConfigService.getConfig s') = Js.trim url
    /\ LLMConfig.apiToken (ConfigService.getConfig s') = Js.trim token
    /\ ConfigService.file s' = Some (ConfigService.config s')
    /\ ConfigService.isConfigured s' = true.
Proof. exact (setApiConfig_accepted s url token). Qed.

Lemma setApiConfig_stores_witness :
  Js.startsWith "https://llm.example/v1  " "http" = true
  /\ Js.trim (noBreakSpaces ++ "hf_token ") <> ""
  /\ ConfigService.writable freshStore = true
  /\ exists s',
       ConfigService.setApiConfig "https://llm.example/v1  "
                                  (noBreakSpaces ++ "hf_token ")
                                  freshStore = (inr tt, s')
       /\ LLMConfig.apiUrl (ConfigService.getConfig s')
          = Js.trim "https://llm.example/v1  "
       /\ LLMConfig.apiToken (ConfigService.getConfig s')
          = Js.trim (noBreakSpaces ++ "hf_token ")
       /\ ConfigService.file s' = Some (ConfigService.config s')
       /\ ConfigService.isConfigured s' = true.
Proof.
  assert (Ht : Js.trim (noBreakSpaces ++ "hf_token ") <> "") by discriminate.
  split; [reflexivity|]. split; [exact Ht|]. split; [reflexivity|].
  exact (setApiConfig_stores freshStore "https://llm.example/v1  "
           (noBreakSpaces ++ "hf_token ") eq_refl Ht eq_refl).
Defined.

(** X7.  A token of white space only is refused with ['API token is
    required'], and the store is as it was. *)
Theorem setApiConfig_blank_token (s : ConfigService.t) (url token : string) :
  Js.startsWith url "http" = true ->
  Js.trim token = "" ->
  ConfigService.setApiConfig url token s
  = (inl (Js.newError "API token is required"), s).
Proof.
  intros Hu Ht.
  destruct (prefix_http url Hu) as [rest ->].
  unfold ConfigService.setApiConfig. rewrite Hu, Ht.
  change (Js.truthy_str ("http" ++ rest)) with true.
  cbn [negb orb String.length Nat.eqb]. rewrite orb_true_r. reflexivity.
Qed.

Lemma setApiConfig_blank_token_witness :
  Js.startsWith "http://localhost:8000" "http" = true
  /\ Js.trim (" " ++ noBreakSpaces) = ""
  /\ ConfigService.setApiConfig "http://localhost:8000"
       (" " ++ noBreakSpaces) readyStore
     = (inl (Js.newError "API token is required"), readyStore).
Proof.
  split; [reflexivity|]. split; [reflexivity|].
  exact (setApiConfig_blank_token readyStore "http://localhost:8000"
           (" " ++ noBreakSpaces) eq_refl eq_refl).
Defined.

(** X8.  A stored token of at most ten characters is shown whole by
    [getMaskedConfig], with ["..."] after it. *)
Theorem getMaskedConfig_short_token (s : ConfigService.t) :
  LLMConfig.apiToken (ConfigService.getConfig s) <> "" ->
  (String.length (LLMConfig.apiToken (ConfigService.getConfig s)) <= 10)%nat ->
  LLMConfig.apiToken (ConfigService.getMaskedConfig s)
  = LLMConfig.apiToken (ConfigService.getConfig s) ++ "...".
Proof.
  intros Hne Hlen. unfold ConfigService.getMaskedConfig.
  cbn [LLMConfig.apiToken].
  apply truthy_str_spec in Hne. rewrite Hne.
  now rewrite substring0_all.
Qed.

Lemma getMaskedConfig_short_token_witness :
  let s := ConfigService.mk
             (PartialConfig.mk None (Some "secret") None None None None None)
             None true in
  LLMConfig.apiToken (ConfigService.getConfig s) <> ""
  /\ (String.length (LLMConfig.apiToken (ConfigService.getConfig s)) <= 10)%nat
  /\ LLMConfig.apiToken (ConfigService.getMaskedConfig s) = "secret...".
Proof.
  cbv zeta.
  assert (Hne : LLMConfig.apiToken
                  (ConfigService.getConfig
                     (ConfigService.mk
                        (PartialConfig.mk None (Some "secret")
                                          None None None None None)
                        None true)) <> "") by discriminate.
  assert (Hlen : (String.length
                    (LLMConfig.apiToken
                       (ConfigService.getConfig
                          (ConfigService.mk
                             (PartialConfig.mk None (Some "secret")
                                               None None None None None)
                             None true))) <= 10)%nat) by (simpl; lia).
  split; [exact Hne|]. split; [exact Hlen|].
  exact (getMaskedConfig_short_token _ Hne Hlen).
Defined.

Section Lifecycle.

Import ConfigService.

Variables parseInt parseFloat : string -> Js.number.
Variable env : ProcessEnv.t.

Let defaults : PartialConfig.t := envConfig parseInt parseFloat env.

Lemma initializeDefaultConfig_unfold (s : ConfigService.t) :
  initializeDefaultConfig parseInt parseFloat env s =
  if writable s
  then (inr tt, mk defaults (Some defaults) true)
  else (inl (Js.newError "Failed to save configuration"),
        mk defaults (file s) false).
Proof.
  destruct s as [c f [|]]; reflexivity.
Qed.

Lemma resetConfig_unfold (s : ConfigService.t) :
  resetConfig parseInt parseFloat env s =
  initializeDefaultConfig parseInt parseFloat env s.
Proof.
  destruct s as [c f [|]]; reflexivity.
Qed.

(** X9.  [resetConfig] forgets the stored configuration: what
    [getConfig] gives afterwards is the same from any two stores, also
    when the save fails, and it is configured only if the environment
    names an endpoint.  The call returns exactly when the file can be
    written, and the file then holds [this.config]. *)
Theorem resetConfig_forgets (s1 s2 : ConfigService.t) :
  getConfig (snd (resetConfig parseInt parseFloat env s1))
  = getConfig (snd (resetConfig parseInt parseFloat env s2))
  /\ (fst (resetConfig parseInt parseFloat env s1) = inr tt
      <-> writable s1 = true)
  /\ (writable s1 = true ->
      file (snd (resetConfig parseInt parseFloat env s1))
      = Some (config (snd (resetConfig parseInt parseFloat env s1))))
  /\ (Js.or_opt_str (ProcessEnv.LLM_API_URL env) "" = "" ->
      isConfigured (snd (resetConfig parseInt parseFloat env s1)) = false).
Proof.
  rewrite !resetConfig_unfold, !initializeDefaultConfig_unfold.
  destruct (writable s1) eqn:H1; destruct (writable s2) eqn:H2;
    cbn [fst snd];
    (split; [reflexivity|]);
    (split; [intuition discriminate|]);
    (split; [intro; try discriminate; reflexivity|]);
    intro Hu; unfold isConfigured, getConfig; simpl; rewrite Hu; reflexivity.
Qed.

(** X10.  On a file that can be written [loadConfig] never throws.  A
    file that parses becomes [this.config] as it is and is left alone; a
    missing file and a file that does not parse both give the defaults
    of the environment, written to the file. *)
Theorem loadConfig_writable (disk : Disk) (s : ConfigService.t) :
  writable s = true ->
  exists s',
    loadConfig parseInt parseFloat env disk s = (inr tt, s')
    /\ match disk with
       | Json c => config s' = c /\ file s' = file s
       | _ => config s' = defaults /\ file s' = Some defaults
       end.
Proof.
  intro Hw. unfold loadConfig.
  destruct disk as [|c|msg].
  - rewrite initializeDefaultConfig_unfold, Hw. eexists. now split.
  - unfold setConfig. eexists. now split.
  - unfold throw. rewrite initializeDefaultConfig_unfold, Hw.
    eexists. now split.
Qed.

(** X11.  On a file that cannot be written, [loadConfig] throws ['Failed
    to save configuration'] when the file is missing or does not parse,
    and still loads a file that parses. *)
Theorem loadConfig_read_only (disk : Disk) (s : ConfigService.t) :
  writable s = false ->
  match disk with
  | Json c =>
      loadConfig parseInt parseFloat env disk s
      = (inr tt, mk c (file s) false)
  | _ =>
      fst (loadConfig parseInt parseFloat env disk s)
      = inl (Js.newError "Failed to save configuration")
  end.
Proof.
  intro Hw. unfold loadConfig.
  destruct disk as [|c|msg].
  - rewrite initializeDefaultConfig_unfold, Hw. cbn [fst snd].
    rewrite initializeDefaultConfig_unfold. reflexivity.
  - unfold setConfig. now rewrite Hw.
  - unfold throw. rewrite initializeDefaultConfig_unfold, Hw. reflexivity.
Qed.

End Lifecycle.

Lemma loadConfig_writable_witness :
  ConfigService.writable freshStore = true
  /\ exists s',
       ConfigService.loadConfig (fun _ => 150) (fun _ => 3 # 10)
         ProcessEnv.unset (ConfigService.Garbled "Unexpected end of JSON input")
         freshStore
       = (inr tt, s')
       /\ ConfigService.config s'
          = ConfigService.envConfig (fun _ => 150) (fun _ => 3 # 10)
              ProcessEnv.unset
       /\ ConfigService.file s'
          = Some (ConfigService.envConfig (fun _ => 150) (fun _ => 3 # 10)
                    ProcessEnv.unset).
Proof.
  split; [reflexivity|].
  exact (loadConfig_writable (fun _ => 150) (fun _ => 3 # 10) ProcessEnv.unset
           (ConfigService.Garbled "Unexpected end of JSON input")
           freshStore eq_refl).
Defined.

Lemma loadConfig_read_only_witness :
  ConfigService.writable readOnlyStore = false
  /\ fst (ConfigService.loadConfig (fun _ => 150) (fun _ => 3 # 10)
            ProcessEnv.unset ConfigService.NoFile readOnlyStore)
     = inl (Js.newError "Failed to save configuration").
Proof.
  split; [reflexivity|].
  exact (loadConfig_read_only (fun _ => 150) (fun _ => 3 # 10)
           ProcessEnv.unset ConfigService.NoFile readOnlyStore eq_refl).
Defined.

(* ================================================================== *)
(** ** More of the completion gateway *)

Section RequestRules.

Import LLMService.

Lemma pushIf_empty (cond : bool) (msg : string) (errors : list string) :
  (List.length (pushIf cond msg errors) =? 0)%nat
  = negb cond && (List.length errors =? 0)%nat.
Proof.
  unfold pushIf. destruct cond; [|reflexivity].
  rewrite length_app, Nat.add_comm. reflexivity.
Qed.

Lemma blank_spec (p : string) :
  negb (Js.truthy_str p) || (String.length (Js.trim p) =? 0)%nat = true
  <-> Js.trim p = "".
Proof.
  split.
  - intro H. apply orb_true_iff in H. destruct H as [H|H].
    + apply negb_true_iff, truthy_str_false in H. now rewrite H.
    + destruct (Js.trim p); [reflexivity | discriminate H].
  - intro H. rewrite H. apply orb_true_r.
Qed.

Lemma too_long_spec (p : string) :
  Js.truthy_str p && (Z.of_nat (String.length p) >? 10000)%Z = true
  <-> (10000 < Z.of_nat (String.length p))%Z.
Proof.
  rewrite andb_true_iff, Z.gtb_ltb, Z.ltb_lt, truthy_str_spec.
  split; [tauto|]. intro H. split; [|exact H].
  intro E. rewrite E in H. simpl in H. lia.
Qed.

Lemma presentOutside_spec (lo hi : Js.number) (x : option Js.number) :
  presentOutside x lo hi = true
  <-> exists v, x = Some v /\ ~ (v == 0)%Q /\ outside lo hi v.
Proof.
  unfold presentOutside. destruct x as [v|].
  - rewrite andb_true_iff, truthy_num_spec, outside_spec. split.
    + intros [H1 H2]. now exists v.
    + intros (w & E & H1 & H2). injection E as ->. now split.
  - split; [discriminate|]. intros (w & E & _). discriminate E.
Qed.

Lemma presentOutside_lets_through (lo hi : Js.number)
                                  (x : option Js.number) :
  presentOutside x lo hi = false <-> absentZeroOrWithin lo hi x.
Proof.
  unfold presentOutside, absentZeroOrWithin. destruct x as [v|]; [|tauto].
  rewrite andb_false_iff, truthy_num_false, within_spec. tauto.
Qed.

Lemma zero_within (hi x : Js.number) :
  (0 <= hi)%Q -> (x == 0)%Q -> within 0 hi x.
Proof.
  intros Hhi E. unfold within. rewrite E. split; [apply Qle_refl | exact Hhi].
Qed.

Lemma outside_not_zero (hi x : Js.number) :
  (0 <= hi)%Q -> outside 0 hi x -> ~ (x == 0)%Q.
Proof.
  intros Hhi [H|H] E; rewrite E in H.
  - exact (Qlt_irrefl _ H).
  - exact (Qlt_not_le _ _ H Hhi).
Qed.

End RequestRules.

(** X13.  [validateRequest] reports each rule by its own message,
    whatever the other rules say: the blank prompt, the prompt over 10000
    characters, a [max_tokens] that is not zero and outside [1, 4000], a
    [temperature] outside [0, 2].  The request is valid exactly when no
    message is reported. *)
Theorem validateRequest_reports (request : LLMRequest.t) :
  let errors := LLMService.errors (LLMService.validateRequest request) in
  (In "Prompt is required and cannot be empty" errors
   <-> Js.trim (LLMRequest.prompt request) = "")
  /\ (In "Prompt is too long (maximum 10,000 characters)" errors
      <-> (10000 < Z.of_nat (String.length (LLMRequest.prompt request)))%Z)
  /\ (In "max_tokens must be between 1 and 4000" errors
      <-> exists n, LLMRequest.max_tokens request = Some n
                    /\ ~ (n == 0)%Q /\ outside 1 4000 n)
  /\ (In "temperature must be between 0 and 2" errors
      <-> exists x, LLMRequest.temperature request = Some x
                    /\ outside 0 2 x)
  /\ (LLMService.valid (LLMService.validateRequest request) = true
      <-> errors = []).
Proof.
  cbv zeta. unfold LLMService.validateRequest.
  cbn [LLMService.errors LLMService.valid].
  rewrite <- blank_spec, <- too_long_spec.
  rewrite <- (presentOutside_spec 1 4000).
  assert (Ht : (exists x, LLMRequest.temperature request = Some x
                          /\ outside 0 2 x)
               <-> LLMService.presentOutside
                     (LLMRequest.temperature request) 0 2 = true).
  { rewrite presentOutside_spec. split.
    - intros (x & E & Ho). exists x. split; [exact E|].
      split; [|exact Ho]. apply (outside_not_zero 2); [discriminate | exact Ho].
    - intros (x & E & _ & Ho). now exists x. }
  rewrite Ht. clear Ht.
  destruct (negb (Js.truthy_str (LLMRequest.prompt request))
            || (String.length (Js.trim (LLMRequest.prompt request)) =? 0)%nat);
    destruct (Js.truthy_str (LLMRequest.prompt request)
              && (Z.of_nat (String.length (LLMRequest.prompt request))
                  >? 10000)%Z);
    destruct (LLMService.presentOutside (LLMRequest.max_tokens request) 1 4000);
    destruct (LLMService.presentOutside (LLMRequest.temperature request) 0 2);
    simpl; intuition (try discriminate; try congruence).
Qed.

(** Validity of a request, field by field. *)
Lemma valid_fields (request : LLMRequest.t) :
  LLMService.valid (LLMService.validateRequest request) = true
  <-> goodPrompt (LLMRequest.prompt request)
      /\ absentZeroOrWithin 1 4000 (LLMRequest.max_tokens request)
      /\ absentOrWithin 0 2 (LLMRequest.temperature request).
Proof.
  unfold LLMService.validateRequest. cbn [LLMService.valid].
  rewrite !pushIf_empty. cbn [List.length Nat.eqb]. rewrite andb_true_r.
  rewrite !andb_true_iff, !negb_true_iff.
  rewrite !presentOutside_lets_through.
  pose proof (blank_spec (LLMRequest.prompt request)) as Hb.
  pose proof (too_long_spec (LLMRequest.prompt request)) as Hl.
  unfold goodPrompt.
  assert (Ht : absentZeroOrWithin 0 2 (LLMRequest.temperature request)
               <-> absentOrWithin 0 2 (LLMRequest.temperature request)).
  { unfold absentZeroOrWithin, absentOrWithin.
    destruct (LLMRequest.temperature request) as [x|]; [|tauto].
    split; [|tauto]. intros [E|H]; [|exact H].
    apply zero_within; [discriminate | exact E]. }
  rewrite Ht. clear Ht.
  assert (G1 : negb (Js.truthy_str (LLMRequest.prompt request))
               || (String.length (Js.trim (LLMRequest.prompt request)) =? 0)%nat
               = false
               <-> Js.trim (LLMRequest.prompt request) <> "").
  { rewrite <- Hb. destruct (negb _ || _); intuition congruence. }
  assert (G2 : Js.truthy_str (LLMRequest.prompt request)
               && (Z.of_nat (String.length (LLMRequest.prompt request))
                   >? 10000)%Z = false
               <-> (Z.of_nat (String.length (LLMRequest.prompt request))
                    <= 10000)%Z).
  { rewrite Z.le_ngt, <- Hl. destruct (_ && _); intuition congruence. }
  rewrite G1, G2. tauto.
Qed.

(** X14.  A request is valid exactly when its prompt is not blank and
    has at most 10000 characters, its [max_tokens] is absent, zero or in
    [1, 4000], and its [temperature] is absent or in [0, 2]. *)
Theorem validateRequest_valid_iff (request : LLMRequest.t) :
  LLMService.valid (LLMService.validateRequest request) = true
  <-> goodPrompt (LLMRequest.prompt request)
      /\ absentZeroOrWithin 1 4000 (LLMRequest.max_tokens request)
      /\ absentOrWithin 0 2 (LLMRequest.temperature request).
Proof. exact (valid_fields request). Qed.

Section PayloadFacts.

Import LLMService.

Lemma or_str_truthy (a b : string) : b <> "" -> Js.or_str a b <> "".
Proof.
  intro Hb. unfold Js.or_str.
  destruct (Js.truthy_str a) eqn:Ha; [|exact Hb].
  now apply truthy_str_spec.
Qed.

Lemma or_num_truthy (a b : Js.number) :
  ~ (b == 0)%Q -> ~ (Js.or_num a b == 0)%Q.
Proof.
  intro Hb. unfold Js.or_num.
  destruct (Js.truthy_num a) eqn:Ha; [|exact Hb].
  now apply truthy_num_spec.
Qed.

Lemma or_opt_num_truthy (a : option Js.number) (b : Js.number) :
  ~ (b == 0)%Q -> ~ (Js.or_opt_num a b == 0)%Q.
Proof.
  destruct a as [v|]; simpl; [apply or_num_truthy | trivial].
Qed.

Lemma or_num_within (lo hi a b : Js.number) :
  within lo hi a \/ (a == 0)%Q -> within lo hi b ->
  within lo hi (Js.or_num a b).
Proof.
  intros Ha Hb. unfold Js.or_num.
  destruct (Js.truthy_num a) eqn:E; [|exact Hb].
  apply truthy_num_spec in E. tauto.
Qed.

Lemma or_opt_num_within (lo hi : Js.number) (a : option Js.number)
                        (b : Js.number) :
  absentZeroOrWithin lo hi a -> within lo hi b ->
  within lo hi (Js.or_opt_num a b).
Proof.
  destruct a as [v|]; simpl; [|trivial].
  intros Ha Hb. apply or_num_within; tauto.
Qed.

End PayloadFacts.

(** X15.  Whatever the configuration and the request, the call that
    [sendChatCompletion] prepares has a model that is not empty and a
    [max_tokens], a [temperature] and a time-out that are not zero: each
    [||] chain ends in a literal. *)
Theorem call_never_empty (config : LLMConfig.t) (request : LLMRequest.t) :
  let c := LLMService.call config request in
  Axios.model (Axios.payload c) <> ""
  /\ ~ (Axios.max_tokens (Axios.payload c) == 0)%Q
  /\ ~ (Axios.temperature (Axios.payload c) == 0)%Q
  /\ ~ (Axios.timeout c == 0)%Q.
Proof.
  cbv zeta. unfold LLMService.call, LLMService.payload.
  cbn [Axios.payload Axios.model Axios.max_tokens Axios.temperature
       Axios.timeout].
  split; [apply or_str_truthy, or_str_truthy; discriminate|].
  split; [apply or_opt_num_truthy, or_num_truthy; discriminate|].
  split; [apply or_opt_num_truthy, or_num_truthy; discriminate|].
  apply or_num_truthy; discriminate.
Qed.

(** X16.  For a request that [validateRequest] finds valid, over a
    configuration whose [maxTokens] is in [1, 4000] and whose
    [temperature] is in [0, 2], the payload has its [max_tokens] in
    [1, 4000] and its [temperature] in [0, 2]. *)
Theorem payload_within_bounds (config : LLMConfig.t)
                              (request : LLMRequest.t) :
  LLMService.valid (LLMService.validateRequest request) = true ->
  within 1 4000 (LLMConfig.maxTokens config) ->
  within 0 2 (LLMConfig.temperature config) ->
  within 1 4000 (Axios.max_tokens (LLMService.payload config request))
  /\ within 0 2 (Axios.temperature (LLMService.payload config request)).
Proof.
  intros Hv Hm Ht.
  apply valid_fields in Hv. destruct Hv as (_ & Hrm & Hrt).
  unfold LLMService.payload. cbn [Axios.max_tokens Axios.temperature].
  split.
  - apply or_opt_num_within; [exact Hrm|].
    apply or_num_within; [now left | split; discriminate].
  - apply or_opt_num_within.
    + unfold absentZeroOrWithin, absentOrWithin in *.
      destruct (LLMRequest.temperature request); tauto.
    + apply or_num_within; [now left | split; discriminate].
Qed.

Lemma payload_within_bounds_witness :
  LLMService.valid
    (LLMService.validateRequest (LLMRequest.mk "" "hi" (Some 0) (Some 0)))
  = true
  /\ within 1 4000 (LLMConfig.maxTokens (ConfigService.getConfig readyStore))
  /\ within 0 2 (LLMConfig.temperature (ConfigService.getConfig readyStore))
  /\ within 1 4000
       (Axios.max_tokens
          (LLMService.payload (ConfigService.getConfig readyStore)
             (LLMRequest.mk "" "hi" (Some 0) (Some 0))))
  /\ within 0 2
       (Axios.temperature
          (LLMService.payload (ConfigService.getConfig readyStore)
             (LLMRequest.mk "" "hi" (Some 0) (Some 0)))).
Proof.
  assert (Hm : within 1 4000
                 (LLMConfig.maxTokens (ConfigService.getConfig readyStore)))
    by (split; discriminate).
  assert (Ht : within 0 2
                 (LLMConfig.temperature (ConfigService.getConfig readyStore)))
    by (split; discriminate).
  split; [reflexivity|]. split; [exact Hm|]. split; [exact Ht|].
  exact (payload_within_bounds (ConfigService.getConfig readyStore)
           (LLMRequest.mk "" "hi" (Some 0) (Some 0)) eq_refl Hm Ht).
Defined.

Section GatewayCalls.

Import LLMService.

Variable net : Axios.Network.
Variable cs : ConfigService.t.

Lemma sendChatCompletion_log (request : LLMRequest.t) :
  snd (sendChatCompletion net cs request)
  = if ConfigService.isConfigured cs
    then [call (ConfigService.getConfig cs) request]
    else [].
Proof.
  unfold sendChatCompletion, ConfigService.isConfigured.
  destruct (Js.truthy_str (LLMConfig.apiUrl (ConfigService.getConfig cs)));
    [|reflexivity].
  destruct (Js.truthy_str (LLMConfig.apiToken (ConfigService.getConfig cs)));
    [|reflexivity].
  cbn [negb andb].
  now destruct (attempt net (call (ConfigService.getConfig cs) request)).
Qed.

Lemma testConnection_log (startTime endTime : Z) :
  snd (testConnection net cs startTime endTime)
  = snd (sendCompletion net cs testPrompt (Some 20)).
Proof.
  unfold testConnection.
  now destruct (sendCompletion net cs testPrompt (Some 20)) as [[e|t] log].
Qed.

End GatewayCalls.

(** X17.  No method of the gateway calls the endpoint twice.
    [sendChatCompletion], [sendCompletion] and [testConnection] each make
    one call when the service is configured and none when it is not,
    whatever the network answers; the call goes to the stored endpoint
    with the stored token as bearer, and carries the prompt as it was
    given. *)
Theorem gateway_calls_once (net : Axios.Network) (cs : ConfigService.t)
                           (request : LLMRequest.t) (prompt : string)
                           (maxTokens : option Js.number)
                           (startTime endTime : Z) :
  let once r :=
    if ConfigService.isConfigured cs
    then [LLMService.call (ConfigService.getConfig cs) r]
    else [] in
  snd (LLMService.sendChatCompletion net cs request) = once request
  /\ snd (LLMService.sendCompletion net cs prompt maxTokens)
     = once (LLMRequest.mk "" prompt maxTokens None)
  /\ snd (LLMService.testConnection net cs startTime endTime)
     = once (LLMRequest.mk "" LLMService.testPrompt (Some 20) None)
  /\ (forall c,
        In c (snd (LLMService.sendChatCompletion net cs request)) ->
        Axios.url c = LLMConfig.apiUrl (ConfigService.getConfig cs)
        /\ Axios.authorization c
           = "Bearer " ++ LLMConfig.apiToken (ConfigService.getConfig cs)
        /\ Axios.prompt (Axios.payload c) = LLMRequest.prompt request).
Proof.
  cbv zeta.
  split; [apply sendChatCompletion_log|].
  split; [rewrite sendCompletion_calls; apply sendChatCompletion_log|].
  split.
  - rewrite testConnection_log, sendCompletion_calls.
    apply sendChatCompletion_log.
  - intros c Hin. rewrite sendChatCompletion_log in Hin.
    destruct (ConfigService.isConfigured cs); [|contradiction].
    destruct Hin as [<-|[]]. repeat split.
Qed.

(** X18.  When the service is configured and the endpoint replies with a
    status below 400, [sendChatCompletion] returns the body of the reply
    as it is. *)
Theorem sendChatCompletion_returns_body (net : Axios.Network)
                                        (cs : ConfigService.t)
                                        (request : LLMRequest.t)
                                        (r : Axios.Response) :
  ConfigService.isConfigured cs = true ->
  net (LLMService.call (ConfigService.getConfig cs) request)
  = Axios.Replied r ->
  (Axios.status r < 400)%Z ->
  fst (LLMService.sendChatCompletion net cs request) = inr (Axios.data r).
Proof.
  intros Hc Hnet Hs.
  unfold ConfigService.isConfigured in Hc. apply andb_true_iff in Hc.
  destruct Hc as [Hu Ht]. apply truthy_str_spec in Hu, Ht.
  rewrite (sendChatCompletion_configured net cs request Hu Ht).
  unfold LLMService.attempt, Axios.post, LLMService.validateStatus.
  rewrite Hnet.
  assert (H5 : (Axios.status r <? 500)%Z = true) by (apply Z.ltb_lt; lia).
  assert (H4 : (Axios.status r >=? 400)%Z = false)
    by (rewrite Z.geb_leb; apply Z.leb_gt; lia).
  now rewrite H5, H4.
Qed.

Lemma sendChatCompletion_returns_body_witness :
  ConfigService.isConfigured readyStore = true
  /\ replying (textReply "Hello!")
       (LLMService.call (ConfigService.getConfig readyStore)
          (LLMRequest.mk "" "hi" None None))
     = Axios.Replied (textReply "Hello!")
  /\ (Axios.status (textReply "Hello!") < 400)%Z
  /\ fst (LLMService.sendChatCompletion (replying (textReply "Hello!"))
            readyStore (LLMRequest.mk "" "hi" None None))
     = inr (Axios.data (textReply "Hello!")).
Proof.
  split; [reflexivity|]. split; [reflexivity|]. split; [reflexivity|].
  exact (sendChatCompletion_returns_body (replying (textReply "Hello!"))
           readyStore (LLMRequest.mk "" "hi" None None) (textReply "Hello!")
           eq_refl eq_refl eq_refl).
Defined.

(** X19.  Of a reply with choices, [sendCompletion] reads the first one
    only.  It returns the text of that choice when there is one and it is
    not empty; when the text is absent or empty, it returns the message
    content if that is not empty. *)
Theorem sendCompletion_prefers_text (net : Axios.Network)
                                    (cs : ConfigService.t) (prompt : string)
                                    (maxTokens : option Js.number)
                                    (response : LLMResponse.t)
                                    (choice : LLMResponse.Choice)
                                    (rest : list LLMResponse.Choice) :
  fst (LLMService.sendChatCompletion net cs
         (LLMRequest.mk "" prompt maxTokens None)) = inr response ->
  LLMResponse.choices response = Some (choice :: rest) ->
  (forall t, LLMResponse.text choice = Some t -> t <> "" ->
             fst (LLMService.sendCompletion net cs prompt maxTokens) = inr t)
  /\ (forall c,
        LLMResponse.text choice = None \/ LLMResponse.text choice = Some "" ->
        LLMService.messageContent choice = Some c -> c <> "" ->
        fst (LLMService.sendCompletion net cs prompt maxTokens) = inr c).
Proof.
  intros Hsent Hch.
  rewrite (sendCompletion_reply net cs prompt maxTokens response Hsent), Hch.
  unfold LLMService.choiceText. split.
  - intros t Ht Hne. rewrite Ht. simpl. unfold Js.or_str.
    apply truthy_str_spec in Hne. now rewrite Hne.
  - intros c Ht Hc Hne. rewrite Hc.
    apply truthy_str_spec in Hne.
    destruct Ht as [-> | ->]; simpl; unfold Js.or_str; now rewrite Hne.
Qed.

Lemma sendCompletion_prefers_text_witness :
  fst (LLMService.sendChatCompletion (replying (textReply "Hello!"))
         readyStore (LLMRequest.mk "" "hi" None None))
  = inr (Axios.data (textReply "Hello!"))
  /\ LLMResponse.choices (Axios.data (textReply "Hello!"))
     = Some [LLMResponse.mkChoice (Some "Hello!") None]
  /\ fst (LLMService.sendCompletion (replying (textReply "Hello!"))
            readyStore "hi" None)
     = inr "Hello!".
Proof.
  split; [reflexivity|]. split; [reflexivity|].
  destruct (sendCompletion_prefers_text (replying (textReply "Hello!"))
              readyStore "hi" None (Axios.data (textReply "Hello!"))
              (LLMResponse.mkChoice (Some "Hello!") None) []
              eq_refl eq_refl) as [Htext _].
  apply Htext; [reflexivity | discriminate].
Defined.

(* ================================================================== *)
(** ** The routes of the chat *)

Section ChatRoutes.

Import LLMService.

Variable net : Axios.Network.
Variable cs : ConfigService.t.
Variable now : string.

Lemma simple_log (p : string) (maxTokens : option Js.number) :
  Js.trim p <> "" ->
  snd (ChatRouter.simple net cs now (Some p) maxTokens)
  = snd (sendCompletion net cs p maxTokens)
  /\ (ChatRouter.code (fst (ChatRouter.simple net cs now (Some p) maxTokens))
      = 200%Z
      \/ ChatRouter.code
           (fst (ChatRouter.simple net cs now (Some p) maxTokens))
         = 500%Z).
Proof.
  intro Hp. unfold ChatRouter.simple.
  assert (Hb : negb (Js.truthy_str p)
               || (String.length (Js.trim p) =? 0)%nat = false).
  { destruct (negb (Js.truthy_str p)
              || (String.length (Js.trim p) =? 0)%nat) eqn:E; [|reflexivity].
    apply blank_spec in E. contradiction. }
  rewrite Hb.
  destruct (sendCompletion net cs p maxTokens) as [[e|t] log]; simpl; auto.
Qed.

End ChatRoutes.

(** X20.  [POST /api/chat/completion] answers a request that
    [validateRequest] finds invalid with status 400 and all the messages
    of the validation, of which there is at least one, and makes no call
    to the endpoint. *)
Theorem completion_rejects (net : Axios.Network) (cs : ConfigService.t)
                           (now : string) (request : LLMRequest.t) :
  LLMService.valid (LLMService.validateRequest request) = false ->
  ChatRouter.completion net cs now request
  = (ChatRouter.mkReply 400
       (ChatRouter.Invalid "Invalid request"
          (LLMService.errors (LLMService.validateRequest request))),
     [])
  /\ LLMService.errors (LLMService.validateRequest request) <> [].
Proof.
  intro Hv. unfold ChatRouter.completion. rewrite Hv. split; [reflexivity|].
  intro E. unfold LLMService.validateRequest in *.
  cbn [LLMService.valid LLMService.errors] in *.
  rewrite E in Hv. discriminate Hv.
Qed.

Lemma completion_rejects_witness :
  LLMService.valid
    (LLMService.validateRequest (LLMRequest.mk "" "  " (Some 5000) (Some 3)))
  = false
  /\ ChatRouter.completion silent readyStore "2025-01-01T00:00:00.000Z"
       (LLMRequest.mk "" "  " (Some 5000) (Some 3))
     = (ChatRouter.mkReply 400
          (ChatRouter.Invalid "Invalid request"
             ["Prompt is required and cannot be empty";
              "max_tokens must be between 1 and 4000";
              "temperature must be between 0 and 2"]),
        []).
Proof.
  split; [reflexivity|].
  exact (proj1 (completion_rejects silent readyStore
                  "2025-01-01T00:00:00.000Z"
                  (LLMRequest.mk "" "  " (Some 5000) (Some 3)) eq_refl)).
Defined.

(** X21.  The status of [POST /api/chat/completion] tells three cases
    apart and no more: 400 exactly for an invalid request, 200 exactly
    for a valid request on which [sendChatCompletion] returns, 500
    exactly for a valid request on which it throws (a store that is not
    configured among them). *)
Theorem completion_status (net : Axios.Network) (cs : ConfigService.t)
                          (now : string) (request : LLMRequest.t) :
  let code :=
    ChatRouter.code (fst (ChatRouter.completion net cs now request)) in
  let ok := LLMService.valid (LLMService.validateRequest request) in
  let sent := fst (LLMService.sendChatCompletion net cs request) in
  (code = 400%Z <-> ok = false)
  /\ (code = 200%Z <-> ok = true /\ exists d, sent = inr d)
  /\ (code = 500%Z <-> ok = true /\ exists e, sent = inl e)
  /\ (ok = true -> ConfigService.isConfigured cs = false -> code = 500%Z).
Proof.
  cbv zeta. unfold ChatRouter.completion.
  pose proof (sendChatCompletion_log net cs request) as Hlog.
  destruct (LLMService.valid (LLMService.validateRequest request)).
  - cbn [negb].
    destruct (LLMService.sendChatCompletion net cs request)
      as [[e|d] log] eqn:E; cbn [fst snd ChatRouter.code] in *.
    + repeat split; try discriminate; eauto.
      intros [_ [d H]]. discriminate H.
    + repeat split; try discriminate; eauto.
      * intros [_ [e H]]. discriminate H.
      * intros _ Hc. rewrite Hc in Hlog.
        unfold LLMService.sendChatCompletion, ConfigService.isConfigured in *.
        destruct (Js.truthy_str
                    (LLMConfig.apiUrl (ConfigService.getConfig cs)));
          [|discriminate E].
        destruct (Js.truthy_str
                    (LLMConfig.apiToken (ConfigService.getConfig cs)));
          [discriminate Hc | discriminate E].
  - cbn [negb fst ChatRouter.code].
    repeat split; try discriminate; try tauto.
    + intros [H _]. discriminate H.
    + intros [H _]. discriminate H.
Qed.

(** X22.  [POST /api/chat/simple] checks the prompt only.  With a prompt
    that is not blank on a configured service, it makes one call, and a
    [maxTokens] that is not zero is sent as it is, whatever its size. *)
Theorem simple_sends_maxTokens (net : Axios.Network) (cs : ConfigService.t)
                               (now p : string) (n : Js.number) :
  ConfigService.isConfigured cs = true ->
  Js.trim p <> "" ->
  ~ (n == 0)%Q ->
  exists c,
    snd (ChatRouter.simple net cs now (Some p) (Some n)) = [c]
    /\ Axios.max_tokens (Axios.payload c) = n
    /\ Axios.prompt (Axios.payload c) = p.
Proof.
  intros Hc Hp Hn.
  destruct (simple_log net cs now p (Some n) Hp) as [Hlog _].
  rewrite Hlog, sendCompletion_calls, sendChatCompletion_log, Hc.
  eexists. split; [reflexivity|].
  unfold LLMService.call, LLMService.payload.
  cbn [Axios.payload Axios.max_tokens Axios.prompt LLMRequest.max_tokens
       LLMRequest.prompt Js.or_opt_num].
  unfold Js.or_num. apply truthy_num_spec in Hn. now rewrite Hn.
Qed.

Lemma simple_sends_maxTokens_witness :
  ConfigService.isConfigured readyStore = true
  /\ Js.trim "hi" <> ""
  /\ ~ (100000 == 0)%Q
  /\ exists c,
       snd (ChatRouter.simple silent readyStore "2025-01-01T00:00:00.000Z"
              (Some "hi") (Some 100000)) = [c]
       /\ Axios.max_tokens (Axios.payload c) = 100000
       /\ Axios.prompt (Axios.payload c) = "hi".
Proof.
  assert (Hp : Js.trim "hi" <> "") by discriminate.
  assert (Hn : ~ (100000 == 0)%Q) by discriminate.
  split; [reflexivity|]. split; [exact Hp|]. split; [exact Hn|].
  exact (simple_sends_maxTokens silent readyStore "2025-01-01T00:00:00.000Z"
           "hi" 100000 eq_refl Hp Hn).
Defined.

(** X23.  [POST /api/chat/simple] answers a missing prompt and a prompt
    of white space only with status 400, and makes no call. *)
Theorem simple_rejects_blank (net : Axios.Network) (cs : ConfigService.t)
                             (now : string) (prompt : option string)
                             (maxTokens : option Js.number) :
  (forall p, prompt = Some p -> Js.trim p = "") ->
  ChatRouter.simple net cs now prompt maxTokens
  = (ChatRouter.mkReply 400
       (ChatRouter.Refused "Prompt is required and must be a non-empty string"),
     []).
Proof.
  intro H. unfold ChatRouter.simple. destruct prompt as [p|]; [|reflexivity].
  assert (Hb : negb (Js.truthy_str p)
               || (String.length (Js.trim p) =? 0)%nat = true)
    by (apply blank_spec, H; reflexivity).
  now rewrite Hb.
Qed.

Lemma simple_rejects_blank_witness :
  (forall p, Some (noBreakSpaces ++ " ") = Some p -> Js.trim p = "")
  /\ ChatRouter.simple silent readyStore "2025-01-01T00:00:00.000Z"
       (Some (noBreakSpaces ++ " ")) (Some 20)
     = (ChatRouter.mkReply 400
          (ChatRouter.Refused
             "Prompt is required and must be a non-empty string"),
        []).
Proof.
  assert (H : forall p, Some (noBreakSpaces ++ " ") = Some p -> Js.trim p = "")
    by (intros p E; injection E as <-; reflexivity).
  split; [exact H|].
  exact (simple_rejects_blank silent readyStore "2025-01-01T00:00:00.000Z"
           (Some (noBreakSpaces ++ " ")) (Some 20) H).
Defined.

(** X24.  [POST /api/chat/test] answers 200 exactly when the test
    completion returns a text and 500 exactly when it throws, with the
    message of [testConnection] in the body; it has no other status. *)
Theorem test_status (net : Axios.Network) (cs : ConfigService.t)
                    (now : string) (startTime endTime : Z) :
  let reply := fst (ChatRouter.test net cs now startTime endTime) in
  let got :=
    fst (LLMService.sendCompletion net cs LLMService.testPrompt (Some 20)) in
  (ChatRouter.code reply = 200%Z <-> exists text, got = inr text)
  /\ (ChatRouter.code reply = 500%Z <-> exists e, got = inl e)
  /\ (forall e, got = inl e ->
        ChatRouter.body reply
        = ChatRouter.TestFailed ("Connection failed: " ++ Js.message e) now)
  /\ (forall text, got = inr text ->
        ChatRouter.body reply
        = ChatRouter.TestPassed
            ("Connection successful! Response: "
             ++ Js.substring0 100 text ++ "...")
            (Some (endTime - startTime)%Z) now).
Proof.
  cbv zeta. unfold ChatRouter.test, LLMService.testConnection.
  destruct (LLMService.sendCompletion net cs LLMService.testPrompt (Some 20))
    as [[e|text] log]; cbn [fst snd LLMService.success ChatRouter.code
                             ChatRouter.body LLMService.message
                             LLMService.responseTime].
  - split; [split; [discriminate | intros [t H]; discriminate H]|].
    split; [split; eauto|].
    split; [intros e' H; injection H as <-; reflexivity|].
    intros t H. discriminate H.
  - split; [split; eauto|].
    split; [split; [discriminate | intros [e H]; discriminate H]|].
    split; [intros e H; discriminate H|].
    intros t H. injection H as <-. reflexivity.
Qed.

(* ================================================================== *)
(** ** The routes of the configuration *)

Section ConfigRoutes.

Import ConfigService.

Lemma guard_spec (c : PartialConfig.t) :
  (ConfigRouter.isDefined (PartialConfig.apiUrl c)
   || ConfigRouter.isDefined (PartialConfig.apiToken c))
  && (negb (Js.truthy_opt_str (PartialConfig.apiUrl c))
      || negb (Js.truthy_opt_str (PartialConfig.apiToken c))) = false
  <-> BothOrNeither c.
Proof.
  unfold BothOrNeither.
  destruct (PartialConfig.apiUrl c) as [u|];
    destruct (PartialConfig.apiToken c) as [t|]; simpl.
  - split.
    + intro H. apply orb_false_iff in H. destruct H as [H1 H2].
      apply negb_false_iff, truthy_str_spec in H1.
      apply negb_false_iff, truthy_str_spec in H2.
      right. exists u, t. auto.
    + intros [[H _] | (u' & t' & Eu & Et & Hu & Ht)]; [discriminate H|].
      injection Eu as <-. injection Et as <-.
      apply truthy_str_spec in Hu, Ht. now rewrite Hu, Ht.
  - rewrite orb_true_r. split; [discriminate|].
    intros [[H _] | (u' & t' & _ & H & _)]; discriminate H.
  - split; [discriminate|].
    intros [[_ H] | (u' & t' & H & _)]; discriminate H.
  - split; [now left | reflexivity].
Qed.

Lemma updateConfig_fails_unchanged (s s' : ConfigService.t)
                                   (c : PartialConfig.t) (e : Error) :
  updateConfig c s = (inl e, s') -> writable s = true -> s' = s.
Proof.
  intros H Hw.
  destruct (firstViolation c) as [msg|] eqn:Hc.
  - rewrite (updateConfig_throws s c msg Hc) in H. now injection H.
  - rewrite (updateConfig_passes s c Hc) in H.
    unfold saveConfig in H; cbn [writable] in H. rewrite Hw in H.
    discriminate H.
Qed.

Lemma setApiConfig_returns (s s' : ConfigService.t) (url token : string) :
  setApiConfig url token s = (inr tt, s') ->
  Js.startsWith url "http" = true
  /\ Js.trim token <> ""
  /\ writable s = true.
Proof.
  unfold setApiConfig. intro H.
  destruct (negb (Js.truthy_str url) || negb (Js.startsWith url "http"))
    eqn:E1; [discriminate H|].
  destruct (negb (Js.truthy_str token)
            || (String.length (Js.trim token) =? 0)%nat) eqn:E2;
    [discriminate H|].
  apply orb_false_iff in E1. destruct E1 as [_ E1].
  apply negb_false_iff in E1.
  apply updateConfig_returns in H. destruct H as (_ & Hw & _).
  split; [exact E1|]. split; [|exact Hw].
  intro E. apply blank_spec in E. congruence.
Qed.

Lemma setApiConfig_fails_unchanged (s s' : ConfigService.t)
                                   (url token : string) (e : Error) :
  setApiConfig url token s = (inl e, s') -> writable s = true -> s' = s.
Proof.
  unfold setApiConfig. intros H Hw.
  destruct (negb (Js.truthy_str url) || negb (Js.startsWith url "http"));
    [now injection H|].
  destruct (negb (Js.truthy_str token)
            || (String.length (Js.trim token) =? 0)%nat);
    [now injection H|].
  exact (updateConfig_fails_unchanged _ _ _ _ H Hw).
Qed.

End ConfigRoutes.

(** X25.  [POST /api/config] refuses, with status 400 and the store as
    it was, every body that has one of [apiUrl] and [apiToken] without
    the other, or has one of them empty, whatever else the body holds. *)
Theorem post_refuses_lone_field (now : string) (c : PartialConfig.t)
                                (s : ConfigService.t) :
  ~ BothOrNeither c ->
  ConfigRouter.post now c s
  = (ConfigRouter.mkReply 400
       (ConfigRouter.Refused
          "Both apiUrl and apiToken are required when updating API configuration"),
     s).
Proof.
  intro H. unfold ConfigRouter.post.
  destruct ((ConfigRouter.isDefined (PartialConfig.apiUrl c)
             || ConfigRouter.isDefined (PartialConfig.apiToken c))
            && (negb (Js.truthy_opt_str (PartialConfig.apiUrl c))
                || negb (Js.truthy_opt_str (PartialConfig.apiToken c))))
    eqn:G; [reflexivity|].
  apply guard_spec in G. contradiction.
Qed.

Lemma post_refuses_lone_field_witness :
  ~ BothOrNeither (onlyUrl "https://other.example/v1")
  /\ fst (ConfigService.updateConfig (onlyUrl "https://other.example/v1")
            readyStore) = inr tt
  /\ ConfigRouter.post "2025-01-01T00:00:00.000Z"
       (onlyUrl "https://other.example/v1") readyStore
     = (ConfigRouter.mkReply 400
          (ConfigRouter.Refused
             "Both apiUrl and apiToken are required when updating API configuration"),
        readyStore).
Proof.
  assert (H : ~ BothOrNeither (onlyUrl "https://other.example/v1")).
  { intros [[H _] | (u & t & _ & H & _)]; discriminate H. }
  split; [exact H|]. split; [reflexivity|].
  exact (post_refuses_lone_field "2025-01-01T00:00:00.000Z"
           (onlyUrl "https://other.example/v1") readyStore H).
Defined.

(** X26.  On a writable file [POST /api/config] either changes nothing
    or stores the whole update.  It answers 200 exactly when the body
    keeps the rule on [apiUrl] and [apiToken] and is accepted by
    [validateConfig]; the file then holds [this.config], [getConfig] has
    every field of the body, and the reply shows the masked view of the
    new configuration.  Otherwise it answers 400 and the store is as it
    was. *)
Theorem post_all_or_nothing (now : string) (c : PartialConfig.t)
                            (s : ConfigService.t) :
  ConfigService.writable s = true ->
  let reply := fst (ConfigRouter.post now c s) in
  let s' := snd (ConfigRouter.post now c s) in
  (ConfigRouter.code reply = 200%Z <-> BothOrNeither c /\ Accepted c)
  /\ (ConfigRouter.code reply = 200%Z ->
      ConfigService.file s' = Some (ConfigService.config s')
      /\ Carries c (ConfigService.getConfig s')
      /\ ConfigRouter.body reply
         = ConfigRouter.Updated "Configuration updated successfully"
             (ConfigService.getMaskedConfig s') now)
  /\ (ConfigRouter.code reply <> 200%Z ->
      ConfigRouter.code reply = 400%Z /\ s' = s).
Proof.
  intro Hw. cbv zeta. unfold ConfigRouter.post.
  rewrite <- guard_spec.
  destruct ((ConfigRouter.isDefined (PartialConfig.apiUrl c)
             || ConfigRouter.isDefined (PartialConfig.apiToken c))
            && (negb (Js.truthy_opt_str (PartialConfig.apiUrl c))
                || negb (Js.truthy_opt_str (PartialConfig.apiToken c)))).
  - cbn [fst snd ConfigRouter.code].
    split; [split; [discriminate | intros [H _]; discriminate H]|].
    split; [discriminate | tauto].
  - rewrite <- firstViolation_accepts.
    destruct (firstViolation c) as [msg|] eqn:Hc.
    + rewrite (updateConfig_throws s c msg Hc).
      cbn [fst snd ConfigRouter.code].
      split; [split; [discriminate | intros [_ H]; discriminate H]|].
      split; [discriminate | tauto].
    + apply firstViolation_accepts in Hc.
      destruct (updateConfig_accepted s c Hc Hw) as (s' & Hup & Hf & Hca & _).
      rewrite Hup. cbn [fst snd ConfigRouter.code ConfigRouter.body].
      split; [tauto|]. split; [tauto|]. intro H. now contradiction H.
Qed.

Lemma post_all_or_nothing_witness :
  ConfigService.writable readyStore = true
  /\ ConfigRouter.code
       (fst (ConfigRouter.post "2025-01-01T00:00:00.000Z"
               (PartialConfig.mk None None None (Some 5000) None None None)
               readyStore)) = 400%Z
  /\ snd (ConfigRouter.post "2025-01-01T00:00:00.000Z"
            (PartialConfig.mk None None None (Some 5000) None None None)
            readyStore) = readyStore.
Proof.
  split; [reflexivity|].
  destruct (post_all_or_nothing "2025-01-01T00:00:00.000Z"
              (PartialConfig.mk None None None (Some 5000) None None None)
              readyStore eq_refl) as (_ & _ & H).
  apply H. discriminate.
Defined.

(** X27.  [POST /api/config/api] answers 200 only when the service is
    configured afterwards and the file holds [this.config]; any other
    answer is 400, and on a writable file the store is then as it
    was. *)
Theorem postApi_configures (now : string) (apiUrl apiToken : option string)
                           (s : ConfigService.t) :
  let reply := fst (ConfigRouter.postApi now apiUrl apiToken s) in
  let s' := snd (ConfigRouter.postApi now apiUrl apiToken s) in
  (ConfigRouter.code reply = 200%Z ->
   ConfigService.isConfigured s' = true
   /\ ConfigService.file s' = Some (ConfigService.config s'))
  /\ (ConfigRouter.code reply <> 200%Z ->
      ConfigRouter.code reply = 400%Z
      /\ (ConfigService.writable s = true -> s' = s)).
Proof.
  cbv zeta. unfold ConfigRouter.postApi.
  destruct apiUrl as [u|]; destruct apiToken as [t|];
    try (cbn [fst snd ConfigRouter.code]; split; [discriminate | tauto]).
  destruct (negb (Js.truthy_str u) || negb (Js.truthy_str t));
    [cbn [fst snd ConfigRouter.code]; split; [discriminate | tauto]|].
  destruct (ConfigService.setApiConfig u t s) as [[e|[]] s'] eqn:E;
    cbn [fst snd ConfigRouter.code].
  - split; [discriminate|]. intros _. split; [reflexivity|].
    intro Hw. exact (setApiConfig_fails_unchanged _ _ _ _ _ E Hw).
  - split; [|intro H; now contradiction H]. intros _.
    destruct (setApiConfig_returns _ _ _ _ E) as (Hu & Ht & Hw).
    destruct (setApiConfig_accepted s u t Hu Ht Hw)
      as (s'' & E' & _ & _ & Hf & Hc).
    rewrite E in E'. injection E' as <-. now split.
Qed.

(** X28.  [POST /api/config/reset] answers 200 exactly when the file can
    be written and 500 otherwise; either way the configuration in memory
    is the one of the environment, whatever was stored. *)
Theorem postReset_status (parseInt parseFloat : string -> Js.number)
                         (env : ProcessEnv.t) (now : string)
                         (s : ConfigService.t) :
  let reply := fst (ConfigRouter.postReset parseInt parseFloat env now s) in
  let s' := snd (ConfigRouter.postReset parseInt parseFloat env now s) in
  (ConfigRouter.code reply = 200%Z <-> ConfigService.writable s = true)
  /\ (ConfigRouter.code reply = 500%Z <-> ConfigService.writable s = false)
  /\ ConfigService.config s'
     = ConfigService.envConfig parseInt parseFloat env
  /\ (ConfigService.writable s = false ->
      ConfigService.file s' = ConfigService.file s
      /\ ConfigRouter.body reply
         = ConfigRouter.Failed "Failed to reset configuration"
             "Failed to save configuration" now).
Proof.
  cbv zeta. unfold ConfigRouter.postReset.
  rewrite resetConfig_unfold, initializeDefaultConfig_unfold.
  destruct (ConfigService.writable s);
    cbn [fst snd ConfigRouter.code ConfigRouter.body ConfigService.config
         ConfigService.file Js.message Js.newError].
  - split; [tauto|]. split; [split; discriminate|].
    split; [reflexivity | discriminate].
  - split; [split; discriminate|]. split; [tauto|].
    split; [reflexivity|]. intros _. now split.
Qed.

(* ================================================================== *)
(** ** White space other than the space of ASCII *)

(** The no-break space is white space to [trim], so a text of no-break
    spaces is blank wherever the code trims: the request is invalid, the
    token is refused, and the simple route answers 400 without a call. *)
Example trim_no_break_space :
  Js.trim (noBreakSpaces ++ "a b" ++ noBreakSpaces) = "a b"
  /\ Js.trim noBreakSpaces = "".
Proof. split; reflexivity. Qed.

Example validateRequest_no_break_space :
  LLMService.validateRequest (LLMRequest.mk "" noBreakSpaces None None)
  = LLMService.mkValidation false ["Prompt is required and cannot be empty"].
Proof. reflexivity. Qed.

Example setApiConfig_no_break_space :
  ConfigService.setApiConfig "https://llm.example/v1" noBreakSpaces readyStore
  = (inl (Js.newError "API token is required"), readyStore).
Proof. reflexivity. Qed.

Example simple_no_break_space :
  ChatRouter.simple silent readyStore "2025-01-01T00:00:00.000Z"
    (Some noBreakSpaces) None
  = (ChatRouter.mkReply 400
       (ChatRouter.Refused "Prompt is required and must be a non-empty string"),
     []).
Proof. reflexivity. Qed.
